(** * CinemaDetail: the review / stats / like transactions

    A shallow embedding of the three Firestore transactions of
    [src/pages/CinemaDetail.tsx] ([saveMyReview], [deleteMyReview] and
    [toggleLike]) together with the part of the React component state they
    read and write.

    Modelling choices.
    - A JavaScript [number] is an exact rational ([Q]).  The sliders of the
      page produce multiples of 0.5 in [0,5]; every value the transactions
      derive from such inputs is a multiple of 1/8, on which IEEE doubles add
      and subtract exactly, so the rational model agrees with the code
      there.  [NaN] and the infinities are not represented.
    - A Firestore document is a record of optional fields ([None] is an
      absent field, which reads as [undefined]); a numeric field may also
      hold [null].
    - The database is three finite maps keyed by the segments of the
      document paths the page builds with [doc(db, ...)].
    - A transaction body is a computation in a small monad that reads from
      the snapshot and appends buffered writes; [runTransaction] commits
      the writes in order, or leaves the database alone when the store
      reports a failure. *)

From Stdlib Require Import QArith Qminmax Qabs Qround Lqa.
From stdpp Require Import gmap strings list fin_maps sorting.

Local Open Scope string_scope.
Local Open Scope list_scope.
Local Open Scope Q_scope.

(** ** JavaScript values *)

(** A stored numeric field: [null] or a number. *)
Inductive jsval : Type :=
  | Null
  | Num (x : Q).

(** A document field: [None] is [undefined] (field absent). *)
Abbreviation field := (option jsval).

(** [Number(v)] on a defined value: [Number(null)] is [0]. *)
Definition Number (v : jsval) : Q :=
  match v with
  | Null => 0
  | Num x => x
  end.

(** [f ?? d]: the default replaces [undefined] and [null]. *)
Definition nullish (f : field) (d : Q) : jsval :=
  match f with
  | None | Some Null => Num d
  | Some (Num x) => Num x
  end.

(** [Math.max(a, b)] *)
Definition Math_max (a b : Q) : Q := Qmax a b.

(** [a === b] on numbers. *)
Definition strict_eq (a b : Q) : bool := Qeq_bool a b.

(** Firestore timestamps, as ticks of the server clock. *)
Abbreviation Timestamp := nat.

(** ** Documents *)

Module ReviewForm.
Record t : Type := mk {
  screen : Q;
  picture : Q;
  sound : Q;
  seat : Q;
  comment : string;
}.
End ReviewForm.

Module Review.
Record t : Type := mk {
  userId : option string;
  displayName : option string;
  screen : field;
  picture : field;
  sound : field;
  seat : field;
  overall : field;
  comment : option string;
  updatedAt : option Timestamp;
  likeCount : field;
  createdAt : option Timestamp;
}.
End Review.

Module Stats.
Record t : Type := mk {
  count : field;
  sumOverall : field;
  avgOverall : field;
  updatedAt : option Timestamp;
}.
End Stats.

Module Like.
Record t : Type := mk {
  createdAt : option Timestamp;
}.
End Like.

(** [{ merge: true }] on one field: a field of the written data replaces the
    stored one, an absent field keeps it. *)
Definition merge_field {A : Type} (new old : option A) : option A :=
  match new with
  | Some _ => new
  | None => old
  end.

Definition merge_review (data old : Review.t) : Review.t :=
  {| Review.userId := merge_field (Review.userId data) (Review.userId old);
     Review.displayName := merge_field (Review.displayName data) (Review.displayName old);
     Review.screen := merge_field (Review.screen data) (Review.screen old);
     Review.picture := merge_field (Review.picture data) (Review.picture old);
     Review.sound := merge_field (Review.sound data) (Review.sound old);
     Review.seat := merge_field (Review.seat data) (Review.seat old);
     Review.overall := merge_field (Review.overall data) (Review.overall old);
     Review.comment := merge_field (Review.comment data) (Review.comment old);
     Review.updatedAt := merge_field (Review.updatedAt data) (Review.updatedAt old);
     Review.likeCount := merge_field (Review.likeCount data) (Review.likeCount old);
     Review.createdAt := merge_field (Review.createdAt data) (Review.createdAt old) |}.

Definition merge_stats (data old : Stats.t) : Stats.t :=
  {| Stats.count := merge_field (Stats.count data) (Stats.count old);
     Stats.sumOverall := merge_field (Stats.sumOverall data) (Stats.sumOverall old);
     Stats.avgOverall := merge_field (Stats.avgOverall data) (Stats.avgOverall old);
     Stats.updatedAt := merge_field (Stats.updatedAt data) (Stats.updatedAt old) |}.

Definition merge_like (data old : Like.t) : Like.t :=
  {| Like.createdAt := merge_field (Like.createdAt data) (Like.createdAt old) |}.

(** [set(ref, data, { merge: true })] against the stored document, if any. *)
Definition set_merge {D : Type} (merge : D -> D -> D) (data : D) (old : option D) : D :=
  match old with
  | Some o => merge data o
  | None => data
  end.

(** ** The database *)

(** cinema/{cinemaId}/tagReviews/{tag}/reviews/{uid} *)
Abbreviation ReviewRef := (string * string * string)%type.
(** cinema/{cinemaId}/tagReviews/{tag}/stats/summary *)
Abbreviation StatsRef := (string * string)%type.
(** cinema/{cinemaId}/tagReviews/{tag}/reviews/{reviewId}/likes/{uid} *)
Abbreviation LikeRef := (string * string * string * string)%type.

Record Db : Type := mkDb {
  reviews : gmap ReviewRef Review.t;
  stats : gmap StatsRef Stats.t;
  likes : gmap LikeRef Like.t;
}.

Definition empty_db : Db := {| reviews := ∅; stats := ∅; likes := ∅ |}.

(** ** Transactions *)

Inductive Write : Type :=
  | SetReview (ref : ReviewRef) (data : Review.t)
  | DeleteReview (ref : ReviewRef)
  | SetStats (ref : StatsRef) (data : Stats.t)
  | SetLike (ref : LikeRef) (data : Like.t)
  | DeleteLike (ref : LikeRef).

Definition apply_write (db : Db) (w : Write) : Db :=
  match w with
  | SetReview ref data =>
      {| reviews := <[ref := set_merge merge_review data (reviews db !! ref)]> (reviews db);
         stats := stats db; likes := likes db |}
  | DeleteReview ref =>
      {| reviews := delete ref (reviews db); stats := stats db; likes := likes db |}
  | SetStats ref data =>
      {| reviews := reviews db;
         stats := <[ref := set_merge merge_stats data (stats db !! ref)]> (stats db);
         likes := likes db |}
  | SetLike ref data =>
      {| reviews := reviews db; stats := stats db;
         likes := <[ref := set_merge merge_like data (likes db !! ref)]> (likes db) |}
  | DeleteLike ref =>
      {| reviews := reviews db; stats := stats db; likes := delete ref (likes db) |}
  end.

Definition commit (db : Db) (ws : list Write) : Db := fold_left apply_write ws db.

(** A transaction body: reads see the snapshot, writes are buffered. *)
Definition Tx (A : Type) : Type := Db -> list Write -> A * list Write.

Definition tx_ret {A : Type} (a : A) : Tx A := fun _ ws => (a, ws).

Definition tx_bind {A B : Type} (m : Tx A) (k : A -> Tx B) : Tx B :=
  fun snap ws => let '(a, ws') := m snap ws in k a snap ws'.

Notation "x <- m ;; k" := (tx_bind m (fun x => k))
  (at level 100, m at next level, right associativity).
Notation "m ;;; k" := (tx_bind m (fun _ => k))
  (at level 100, right associativity).

Definition tx_get_review (ref : ReviewRef) : Tx (option Review.t) :=
  fun snap ws => (reviews snap !! ref, ws).
Definition tx_get_stats (ref : StatsRef) : Tx (option Stats.t) :=
  fun snap ws => (stats snap !! ref, ws).
Definition tx_get_like (ref : LikeRef) : Tx (option Like.t) :=
  fun snap ws => (likes snap !! ref, ws).
Definition tx_write (w : Write) : Tx unit :=
  fun _ ws => (tt, ws ++ [w]).

(** What the store decides for one transaction: the server time at commit
    (the value every [serverTimestamp()] of the transaction resolves to)
    and, if the transaction fails (retries exhausted or another fault), the
    text of the error it throws. *)
Record Env : Type := mkEnv {
  now : Timestamp;
  fault : option string;
}.

Definition serverTimestamp (e : Env) : Timestamp := now e.

Definition writes_of {A : Type} (body : Tx A) (db : Db) : list Write :=
  snd (body db []).

Definition runTransaction {A : Type} (e : Env) (body : Tx A) (db : Db)
  : (string + A) * Db :=
  match fault e with
  | Some err => (inl err, db)
  | None => let '(a, ws) := body db [] in (inr a, commit db ws)
  end.

(** ** The component *)

(** The fields of the signed-in [User] the page reads. *)
Record User : Type := mkUser {
  uid : string;
  user_displayName : option string;
  email : option string;
}.

(** What the component is given: the [user] prop and the route's [cinemaId]. *)
Record Props : Type := mkProps {
  user : User;
  cinemaId : string;
}.

(** The [useState] cells the three handlers read or set. *)
Record View : Type := mkView {
  selectedTag : option string;
  myReview : ReviewForm.t;
  savingReview : bool;
  error : option string;
  reviewEditorOpen : bool;
  reviewEditorTouched : bool;
  likedMap : gmap string bool;
  likeBusy : gmap string bool;
}.

Definition setSavingReview (b : bool) (v : View) : View :=
  {| selectedTag := selectedTag v; myReview := myReview v; savingReview := b;
     error := error v; reviewEditorOpen := reviewEditorOpen v;
     reviewEditorTouched := reviewEditorTouched v;
     likedMap := likedMap v; likeBusy := likeBusy v |}.

Definition setError (e : option string) (v : View) : View :=
  {| selectedTag := selectedTag v; myReview := myReview v;
     savingReview := savingReview v;
     error := e; reviewEditorOpen := reviewEditorOpen v;
     reviewEditorTouched := reviewEditorTouched v;
     likedMap := likedMap v; likeBusy := likeBusy v |}.

Definition setReviewEditorOpen (b : bool) (v : View) : View :=
  {| selectedTag := selectedTag v; myReview := myReview v;
     savingReview := savingReview v;
     error := error v; reviewEditorOpen := b;
     reviewEditorTouched := reviewEditorTouched v;
     likedMap := likedMap v; likeBusy := likeBusy v |}.

Definition setReviewEditorTouched (b : bool) (v : View) : View :=
  {| selectedTag := selectedTag v; myReview := myReview v;
     savingReview := savingReview v;
     error := error v; reviewEditorOpen := reviewEditorOpen v;
     reviewEditorTouched := b;
     likedMap := likedMap v; likeBusy := likeBusy v |}.

Definition setMyReview (f : ReviewForm.t) (v : View) : View :=
  {| selectedTag := selectedTag v; myReview := f;
     savingReview := savingReview v;
     error := error v; reviewEditorOpen := reviewEditorOpen v;
     reviewEditorTouched := reviewEditorTouched v;
     likedMap := likedMap v; likeBusy := likeBusy v |}.

(** The setters of the two maps take an updater, as in the source. *)
Definition setLikedMap (f : gmap string bool -> gmap string bool) (v : View) : View :=
  {| selectedTag := selectedTag v; myReview := myReview v;
     savingReview := savingReview v;
     error := error v; reviewEditorOpen := reviewEditorOpen v;
     reviewEditorTouched := reviewEditorTouched v;
     likedMap := f (likedMap v); likeBusy := likeBusy v |}.

Definition setLikeBusy (f : gmap string bool -> gmap string bool) (v : View) : View :=
  {| selectedTag := selectedTag v; myReview := myReview v;
     savingReview := savingReview v;
     error := error v; reviewEditorOpen := reviewEditorOpen v;
     reviewEditorTouched := reviewEditorTouched v;
     likedMap := likedMap v; likeBusy := f (likeBusy v) |}.

(** [m[k]] used as a condition: an absent key is [undefined], hence falsy. *)
Definition flag (m : gmap string bool) (k : string) : bool :=
  match m !! k with
  | Some b => b
  | None => false
  end.

(** [!selectedTag] is true for [null] and for the empty string; the result
    is the tag the handler goes on with, if any. *)
Definition tag_of (v : View) : option string :=
  match selectedTag v with
  | Some t => if decide (t = "") then None else Some t
  | None => None
  end.

(** [a ?? b ?? ""] on strings. *)
Definition name_of (u : User) : string :=
  match user_displayName u with
  | Some n => n
  | None => match email u with
            | Some m => m
            | None => ""
            end
  end.

(** *** saveMyReview *)

Definition saveMyReview_tx (p : Props) (e : Env) (form : ReviewForm.t)
    (reviewRef : ReviewRef) (statsRef : StatsRef) (newOverall : Q) : Tx unit :=
  reviewSnap <- tx_get_review reviewRef ;;
  statsSnap <- tx_get_stats statsRef ;;
  let oldOverall : option Q :=
    match reviewSnap with
    | Some prev =>
        Some match Review.overall prev with
             | Some o => Number o
             | None =>
                 (Number (nullish (Review.screen prev) 0) +
                  Number (nullish (Review.picture prev) 0) +
                  Number (nullish (Review.sound prev) 0) +
                  Number (nullish (Review.seat prev) 0)) / 4
             end
    | None => None
    end in
  let existingLikeCount : Q :=
    match reviewSnap with
    | Some prev => Number (nullish (Review.likeCount prev) 0)
    | None => 0
    end in
  let baseReview : Review.t :=
    {| Review.userId := Some (uid (user p));
       Review.displayName := Some (name_of (user p));
       Review.screen := Some (Num (ReviewForm.screen form));
       Review.picture := Some (Num (ReviewForm.picture form));
       Review.sound := Some (Num (ReviewForm.sound form));
       Review.seat := Some (Num (ReviewForm.seat form));
       Review.overall := Some (Num newOverall);
       Review.comment := Some (ReviewForm.comment form);
       Review.updatedAt := Some (serverTimestamp e);
       Review.likeCount := Some (Num existingLikeCount);
       Review.createdAt := None |} in
  match reviewSnap with
  | None =>
      tx_write (SetReview reviewRef
                  {| Review.userId := Review.userId baseReview;
                     Review.displayName := Review.displayName baseReview;
                     Review.screen := Review.screen baseReview;
                     Review.picture := Review.picture baseReview;
                     Review.sound := Review.sound baseReview;
                     Review.seat := Review.seat baseReview;
                     Review.overall := Review.overall baseReview;
                     Review.comment := Review.comment baseReview;
                     Review.updatedAt := Review.updatedAt baseReview;
                     Review.likeCount := Some (Num 0);
                     Review.createdAt := Some (serverTimestamp e) |})
  | Some _ => tx_write (SetReview reviewRef baseReview)
  end ;;;
  let stats : Stats.t :=
    match statsSnap with
    | Some s => s
    | None => {| Stats.count := Some (Num 0); Stats.sumOverall := Some (Num 0);
                 Stats.avgOverall := None; Stats.updatedAt := None |}
    end in
  let count := Number (nullish (Stats.count stats) 0) in
  let sumOverall := Number (nullish (Stats.sumOverall stats) 0) in
  let '(count, sumOverall) :=
    match oldOverall with
    | None => (count + 1, sumOverall + newOverall)
    | Some old => (count, sumOverall + (newOverall - old))
    end in
  let avgOverall := if strict_eq count 0 then 0 else sumOverall / count in
  tx_write (SetStats statsRef
              {| Stats.count := Some (Num count);
                 Stats.sumOverall := Some (Num sumOverall);
                 Stats.avgOverall := Some (Num avgOverall);
                 Stats.updatedAt := Some (serverTimestamp e) |}).

Definition saveMyReview (p : Props) (e : Env) (v : View) (db : Db) : View * Db :=
  match tag_of v with
  | None => (v, db)
  | Some tag =>
      let v := setSavingReview true v in
      let v := setError None v in
      let form := myReview v in
      let reviewRef := (cinemaId p, tag, uid (user p)) in
      let statsRef := (cinemaId p, tag) in
      let newOverall :=
        (ReviewForm.screen form + ReviewForm.picture form +
         ReviewForm.sound form + ReviewForm.seat form) / 4 in
      match runTransaction e (saveMyReview_tx p e form reviewRef statsRef newOverall) db with
      | (inr _, db') =>
          let v := setReviewEditorTouched true v in
          let v := setReviewEditorOpen false v in
          (setSavingReview false v, db')
      | (inl err, db') =>
          let v := setError (Some err) v in
          (setSavingReview false v, db')
      end
  end.

(** *** deleteMyReview *)

Definition deleteMyReview_tx (e : Env) (reviewRef : ReviewRef) (statsRef : StatsRef)
  : Tx unit :=
  reviewSnap <- tx_get_review reviewRef ;;
  match reviewSnap with
  | None => tx_ret tt
  | Some prev =>
      let oldOverall : Q :=
        match Review.overall prev with
        | Some o => Number o
        | None =>
            (Number (nullish (Review.screen prev) 0) +
             Number (nullish (Review.picture prev) 0) +
             Number (nullish (Review.sound prev) 0) +
             Number (nullish (Review.seat prev) 0)) / 4
        end in
      statsSnap <- tx_get_stats statsRef ;;
      let stats : Stats.t :=
        match statsSnap with
        | Some s => s
        | None => {| Stats.count := Some (Num 0); Stats.sumOverall := Some (Num 0);
                     Stats.avgOverall := None; Stats.updatedAt := None |}
        end in
      let count := Number (nullish (Stats.count stats) 0) in
      let sumOverall := Number (nullish (Stats.sumOverall stats) 0) in
      tx_write (DeleteReview reviewRef) ;;;
      let count := Math_max 0 (count - 1) in
      let sumOverall := sumOverall - oldOverall in
      let sumOverall := if strict_eq count 0 then 0 else sumOverall in
      let avgOverall := if strict_eq count 0 then 0 else sumOverall / count in
      tx_write (SetStats statsRef
                  {| Stats.count := Some (Num count);
                     Stats.sumOverall := Some (Num sumOverall);
                     Stats.avgOverall := Some (Num avgOverall);
                     Stats.updatedAt := Some (serverTimestamp e) |})
  end.

Definition emptyForm : ReviewForm.t :=
  {| ReviewForm.screen := 0; ReviewForm.picture := 0; ReviewForm.sound := 0;
     ReviewForm.seat := 0; ReviewForm.comment := "" |}.

Definition deleteMyReview (p : Props) (e : Env) (v : View) (db : Db) : View * Db :=
  match tag_of v with
  | None => (v, db)
  | Some tag =>
      let v := setError None v in
      let v := setSavingReview true v in
      let reviewRef := (cinemaId p, tag, uid (user p)) in
      let statsRef := (cinemaId p, tag) in
      match runTransaction e (deleteMyReview_tx e reviewRef statsRef) db with
      | (inr _, db') =>
          let v := setMyReview emptyForm v in
          let v := setReviewEditorTouched true v in
          let v := setReviewEditorOpen true v in
          (setSavingReview false v, db')
      | (inl err, db') =>
          let v := setError (Some err) v in
          (setSavingReview false v, db')
      end
  end.

(** *** toggleLike *)

Definition toggleLike_tx (e : Env) (reviewRef : ReviewRef) (likeRef : LikeRef)
  : Tx unit :=
  likeSnap <- tx_get_like likeRef ;;
  reviewSnap <- tx_get_review reviewRef ;;
  let currentLike : Q :=
    match reviewSnap with
    | Some r => Number (nullish (Review.likeCount r) 0)
    | None => 0
    end in
  let likeOnly (n : Q) : Review.t :=
    {| Review.userId := None; Review.displayName := None;
       Review.screen := None; Review.picture := None;
       Review.sound := None; Review.seat := None;
       Review.overall := None; Review.comment := None;
       Review.updatedAt := None;
       Review.likeCount := Some (Num n);
       Review.createdAt := None |} in
  match likeSnap with
  | Some _ =>
      let nextLike := Math_max 0 (currentLike - 1) in
      tx_write (DeleteLike likeRef) ;;;
      tx_write (SetReview reviewRef (likeOnly nextLike))
  | None =>
      let nextLike := currentLike + 1 in
      tx_write (SetLike likeRef {| Like.createdAt := Some (serverTimestamp e) |}) ;;;
      tx_write (SetReview reviewRef (likeOnly nextLike))
  end.

Definition toggleLike (p : Props) (e : Env) (reviewId : string) (v : View) (db : Db)
  : View * Db :=
  match tag_of v with
  | None => (v, db)
  | Some tag =>
      if flag (likeBusy v) reviewId then (v, db)
      else
        let v := setLikeBusy (fun m => <[reviewId := true]> m) v in
        let v := setError None v in
        let reviewRef := (cinemaId p, tag, reviewId) in
        let likeRef := (cinemaId p, tag, reviewId, uid (user p)) in
        match runTransaction e (toggleLike_tx e reviewRef likeRef) db with
        | (inr _, db') =>
            let v := setLikedMap (fun m => <[reviewId := negb (flag m reviewId)]> m) v in
            (setLikeBusy (fun m => <[reviewId := false]> m) v, db')
        | (inl err, db') =>
            let v := setError (Some err) v in
            (setLikeBusy (fun m => <[reviewId := false]> m) v, db')
        end
  end.

(** [overallScore] of the page, the mean of the four sub-scores. *)
Definition overallScore (screen picture sound seat : Q) : Q :=
  (screen + picture + sound + seat) / 4.

(** ** Reading the store back *)

(** The count, sum and average of a stats snapshot as the page reads them:
    a missing document counts as [{ count: 0, sumOverall: 0 }] and a missing
    or [null] field as [0]. *)
Definition statsCount (db : Db) (ref : StatsRef) : Q :=
  match stats db !! ref with
  | Some s => Number (nullish (Stats.count s) 0)
  | None => 0
  end.

Definition statsSum (db : Db) (ref : StatsRef) : Q :=
  match stats db !! ref with
  | Some s => Number (nullish (Stats.sumOverall s) 0)
  | None => 0
  end.

Definition statsAvg (db : Db) (ref : StatsRef) : Q :=
  match stats db !! ref with
  | Some s => Number (nullish (Stats.avgOverall s) 0)
  | None => 0
  end.

(** The like counter of a review as [toggleLike] reads it. *)
Definition likeCountOf (db : Db) (ref : ReviewRef) : Q :=
  match reviews db !! ref with
  | Some r => Number (nullish (Review.likeCount r) 0)
  | None => 0
  end.

(** The mean the page computes from a form. *)
Definition formOverall (f : ReviewForm.t) : Q :=
  overallScore (ReviewForm.screen f) (ReviewForm.picture f)
               (ReviewForm.sound f) (ReviewForm.seat f).

(** The mean of the stored sub-scores of a row, absent ones counting 0. *)
Definition subscoreMean (r : Review.t) : Q :=
  (Number (nullish (Review.screen r) 0) + Number (nullish (Review.picture r) 0) +
   Number (nullish (Review.sound r) 0) + Number (nullish (Review.seat r) 0)) / 4.

(** The [overall] field of a stored row (0 when the field is absent). *)
Definition storedOverall (r : Review.t) : Q :=
  match Review.overall r with
  | Some o => Number o
  | None => 0
  end.

(** The overall value the transactions take for a stored row. *)
Definition readOverall (prev : Review.t) : Q :=
  match Review.overall prev with
  | Some o => Number o
  | None => subscoreMean prev
  end.

(** The row [toggleLike] leaves under the review's key: only [likeCount]
    is written, the other fields of a stored row are kept. *)
Definition withLikeCount (n : Q) (old : option Review.t) : Review.t :=
  {| Review.userId := old ≫= Review.userId;
     Review.displayName := old ≫= Review.displayName;
     Review.screen := old ≫= Review.screen;
     Review.picture := old ≫= Review.picture;
     Review.sound := old ≫= Review.sound;
     Review.seat := old ≫= Review.seat;
     Review.overall := old ≫= Review.overall;
     Review.comment := old ≫= Review.comment;
     Review.updatedAt := old ≫= Review.updatedAt;
     Review.likeCount := Some (Num n);
     Review.createdAt := old ≫= Review.createdAt |}.

(** The live reviews under one (cinema, tag). *)
Definition liveReviews (db : Db) (k : StatsRef) : gmap ReviewRef Review.t :=
  filter (fun x => fst (fst x) = k) (reviews db).

Definition liveCount (db : Db) (k : StatsRef) : nat := size (liveReviews db k).

Definition sumOverallOf (m : gmap ReviewRef Review.t) : Q :=
  map_fold (fun _ r acc => acc + storedOverall r) 0 m.

Definition liveSum (db : Db) (k : StatsRef) : Q := sumOverallOf (liveReviews db k).

(** ** Operation sequences *)

Inductive ReviewOp : Type :=
  | Upsert (p : Props) (e : Env) (v : View)
  | Delete (p : Props) (e : Env) (v : View).

Inductive Op : Type :=
  | OnReview (o : ReviewOp)
  | Toggle (p : Props) (e : Env) (reviewId : string) (v : View).

Definition stepReview (db : Db) (o : ReviewOp) : Db :=
  match o with
  | Upsert p e v => snd (saveMyReview p e v db)
  | Delete p e v => snd (deleteMyReview p e v db)
  end.

Definition step (db : Db) (o : Op) : Db :=
  match o with
  | OnReview r => stepReview db r
  | Toggle p e reviewId v => snd (toggleLike p e reviewId v db)
  end.

Definition runReviews (ops : list ReviewOp) (db : Db) : Db := fold_left stepReview ops db.
Definition run (ops : list Op) (db : Db) : Db := fold_left step ops db.

(** Two toggles of the same review by the same page, one after the other:
    the second call sees the component state the first one left. *)
Definition toggleTwice (p : Props) (e1 e2 : Env) (reviewId : string) (v : View) (db : Db)
  : View * Db :=
  let '(v1, db1) := toggleLike p e1 reviewId v db in
  toggleLike p e2 reviewId v1 db1.

(** ** Validity of a submitted score *)

(** [x] is a multiple of 0.5. *)
Definition onHalfStep (x : Q) : bool :=
  (Z.modulo (Qnum x * 2) (Zpos (Qden x)) =? 0)%Z.

(** A sub-score in [0,5] on the 0.5 grid, as the sliders of the page give. *)
Definition validScore (x : Q) : bool :=
  Qle_bool 0 x && Qle_bool x 5 && onHalfStep x.

Definition validForm (f : ReviewForm.t) : bool :=
  validScore (ReviewForm.screen f) && validScore (ReviewForm.picture f) &&
  validScore (ReviewForm.sound f) && validScore (ReviewForm.seat f).

(** ** Counters that must not go negative *)

Definition nonNegative (db : Db) : Prop :=
  (forall ref r, reviews db !! ref = Some r ->
                 0 <= Number (nullish (Review.likeCount r) 0)) /\
  (forall ref s, stats db !! ref = Some s ->
                 0 <= Number (nullish (Stats.count s) 0)).

(** ** Stats that agree with the live reviews *)

(** The stats document of [k] agrees with the live reviews under [k]. *)
Definition statsAgree (db : Db) (k : StatsRef) : Prop :=
  statsCount db k == inject_Z (Z.of_nat (liveCount db k)) /\
  statsSum db k == liveSum db k /\
  statsAvg db k ==
    (if strict_eq (statsCount db k) 0 then 0 else statsSum db k / statsCount db k).

(** Every stored row carries an [overall] field. *)
Definition overallStored (db : Db) : Prop :=
  forall ref r, reviews db !! ref = Some r -> is_Some (Review.overall r).

Definition statsConsistent (db : Db) : Prop :=
  overallStored db /\ forall k, statsAgree db k.

(** ** Values on the 1/8 grid *)

(** [x] is [z / 8] for an integer [z] between [0] and [40 * n]: a value
    that sums of [n] means of slider scores take, and that a double holds
    exactly. *)
Definition eighthsUpTo (n : nat) (x : Q) : Prop :=
  exists z : Z, x == inject_Z z / 8 /\ (0 <= z <= 40 * Z.of_nat n)%Z.

(** Every stored row carries an [overall] on the grid, between 0 and 5. *)
Definition overallOnGrid (db : Db) : Prop :=
  forall ref r, reviews db !! ref = Some r ->
    is_Some (Review.overall r) /\ eighthsUpTo 1 (storedOverall r).

(** An upsert whose form could have come from the sliders. *)
Definition fromSliders (o : ReviewOp) : Prop :=
  match o with
  | Upsert _ _ v => validForm (myReview v) = true
  | Delete _ _ _ => True
  end.

(** ** Sample data *)

Definition userA : User :=
  {| uid := "A"; user_displayName := Some "Ann"; email := None |}.
Definition userB : User :=
  {| uid := "B"; user_displayName := None; email := Some "b@example.org" |}.
Definition propsA : Props := {| user := userA; cinemaId := "S" |}.
Definition propsB : Props := {| user := userB; cinemaId := "S" |}.

Definition scores (a b c d : Q) : ReviewForm.t :=
  {| ReviewForm.screen := a; ReviewForm.picture := b; ReviewForm.sound := c;
     ReviewForm.seat := d; ReviewForm.comment := "" |}.

(** A freshly mounted page on tag "T" with the given form. *)
Definition viewT (f : ReviewForm.t) : View :=
  {| selectedTag := Some "T"; myReview := f; savingReview := false;
     error := None; reviewEditorOpen := true; reviewEditorTouched := false;
     likedMap := ∅; likeBusy := ∅ |}.

(** The same page before a tag is selected. *)
Definition viewNoTag (f : ReviewForm.t) : View :=
  {| selectedTag := None; myReview := f; savingReview := false;
     error := None; reviewEditorOpen := true; reviewEditorTouched := false;
     likedMap := ∅; likeBusy := ∅ |}.

Definition at_time (n : Timestamp) : Env := {| now := n; fault := None |}.

(** A saves (4,4,4,4). *)
Definition dbOneReview : Db :=
  stepReview empty_db (Upsert propsA (at_time 1) (viewT (scores 4 4 4 4))).

(** ... then B likes A's review. *)
Definition dbLiked : Db :=
  step dbOneReview (Toggle propsB (at_time 2) "A" (viewT emptyForm)).

(** ... then A deletes the review: B's like record stays behind. *)
Definition dbOrphanLike : Db :=
  step dbLiked (OnReview (Delete propsA (at_time 3) (viewT emptyForm))).

(** A legacy row without [overall] and without [seat], counted in the stats. *)
Definition legacyRow : Review.t :=
  {| Review.userId := Some "A"; Review.displayName := None;
     Review.screen := Some (Num 4); Review.picture := Some (Num 2);
     Review.sound := Some (Num 2); Review.seat := None;
     Review.overall := None; Review.comment := None;
     Review.updatedAt := None; Review.likeCount := None;
     Review.createdAt := None |}.

Definition dbLegacy : Db :=
  {| reviews := {[ ("S", "T", "A") := legacyRow ]};
     stats := {[ ("S", "T") :=
                   {| Stats.count := Some (Num 2); Stats.sumOverall := Some (Num 5);
                      Stats.avgOverall := Some (Num (5 # 2));
                      Stats.updatedAt := None |} ]};
     likes := ∅ |}.

(** ** Pagination

    The four pages ([CinemaDetail], [Favorites], [Home], [AllCinemas]) page
    a list the same way, each with its own [PAGE_SIZE].  Lengths and page
    numbers are integers. *)

(** [l.slice(start, end)] on integer arguments: a negative index counts
    from the end, and both are clamped to the list. *)
Definition Array_slice {A : Type} (start stop : Z) (l : list A) : list A :=
  let len := Z.of_nat (length l) in
  let k := if (start <? 0)%Z then Z.max (len + start) 0 else Z.min start len in
  let final := if (stop <? 0)%Z then Z.max (len + stop) 0 else Z.min stop len in
  take (Z.to_nat (Z.max (final - k) 0)) (drop (Z.to_nat k) l).

(** [Math.ceil] *)
Definition Math_ceil (x : Q) : Z := Qceiling x.

(** [Math.max(1, Math.ceil(length / PAGE_SIZE))] *)
Definition totalPages (PAGE_SIZE : Z) (len : nat) : Z :=
  Z.max 1 (Math_ceil (inject_Z (Z.of_nat len) / inject_Z PAGE_SIZE)).

(** [l.slice((page - 1) * PAGE_SIZE, (page - 1) * PAGE_SIZE + PAGE_SIZE)] *)
Definition paged {A : Type} (PAGE_SIZE page : Z) (l : list A) : list A :=
  let start := ((page - 1) * PAGE_SIZE)%Z in
  Array_slice start (start + PAGE_SIZE)%Z l.

Definition PAGE_SIZE_CinemaDetail : Z := 4.
Definition PAGE_SIZE_Favorites : Z := 5.
Definition NEARBY_PAGE_SIZE : Z := 8.
Definition PAGE_SIZE_AllCinemas : Z := 3.

(** The page numbers [1 .. total]. *)
Definition pageNumbers (total : Z) : list Z :=
  map (fun i => Z.of_nat (S i)) (seq 0 (Z.to_nat total)).

(** The effect [if (page > totalPages) setPage(totalPages)]. *)
Definition clampPage (total page : Z) : Z :=
  if (page >? total)%Z then total else page.

(** What the user or the data can do to a paged list: the two buttons
    ([setPage(p => Math.max(1, p - 1))], [setPage(p => Math.min(totalPages,
    p + 1))]), a change of filter, tag or sort order ([setPage(1)]), and a
    change of the length of the list. *)
Inductive PageEvent : Type :=
  | ClickPrev
  | ClickNext
  | ResetPage
  | LengthChanged (len : nat).

(** The page number and the length of the list it pages. *)
Definition pageStep (PAGE_SIZE : Z) (st : Z * nat) (ev : PageEvent) : Z * nat :=
  let '(page, len) := st in
  let '(page', len') :=
    match ev with
    | ClickPrev => (Z.max 1 (page - 1), len)
    | ClickNext => (Z.min (totalPages PAGE_SIZE len) (page + 1), len)
    | ResetPage => (1%Z, len)
    | LengthChanged n => (page, n)
    end in
  (clampPage (totalPages PAGE_SIZE len') page', len').

(** ** The review list of the page *)

(** The page's own [Review] type: a row of the list, every field defaulted. *)
Module ReviewItem.
Record t : Type := mk {
  id : string;
  userId : string;
  displayName : string;
  screen : Q;
  picture : Q;
  sound : Q;
  seat : Q;
  comment : string;
  likeCount : Q;
}.
End ReviewItem.

(** [String(f ?? d)] on a text field. *)
Definition text_or (f : option string) (d : string) : string :=
  match f with
  | Some s => s
  | None => d
  end.

(** The mapping of [snap.docs] in the [onSnapshot] callback; a document is
    its id and its data. *)
Definition toReviewItem (d : string * Review.t) : ReviewItem.t :=
  let raw := snd d in
  {| ReviewItem.id := fst d;
     ReviewItem.userId := text_or (Review.userId raw) (fst d);
     ReviewItem.displayName := text_or (Review.displayName raw) "";
     ReviewItem.screen := Number (nullish (Review.screen raw) 0);
     ReviewItem.picture := Number (nullish (Review.picture raw) 0);
     ReviewItem.sound := Number (nullish (Review.sound raw) 0);
     ReviewItem.seat := Number (nullish (Review.seat raw) 0);
     ReviewItem.comment := text_or (Review.comment raw) "";
     ReviewItem.likeCount := Number (nullish (Review.likeCount raw) 0) |}.

(** The success callback of [onSnapshot], up to the start of the like
    probe: the new list (the argument of [setReviews]) and the component
    state with the form set from the caller's own row, or cleared. *)
Definition onReviewsSnapshot (p : Props) (docs : list (string * Review.t)) (v : View)
  : list ReviewItem.t * View :=
  let list := map toReviewItem docs in
  let mine := find (fun r => bool_decide (ReviewItem.id r = uid (user p))) list in
  let v' :=
    match mine with
    | Some m =>
        let v1 := setMyReview {| ReviewForm.screen := ReviewItem.screen m;
                                 ReviewForm.picture := ReviewItem.picture m;
                                 ReviewForm.sound := ReviewItem.sound m;
                                 ReviewForm.seat := ReviewItem.seat m;
                                 ReviewForm.comment := ReviewItem.comment m |} v in
        if reviewEditorTouched v then v1 else setReviewEditorOpen false v1
    | None =>
        let v1 := setMyReview emptyForm v in
        if reviewEditorTouched v then v1 else setReviewEditorOpen true v1
    end in
  (list, v').

(** The like probe that follows: one [getDoc] of the viewer's like record
    per listed review, gathered into the map given to [setLikedMap].  The
    reads are taken against one database state. *)
Definition probeLikes (p : Props) (tag : string) (list : list ReviewItem.t) (db : Db)
  : gmap string bool :=
  let pairs :=
    map (fun r => (ReviewItem.id r,
                   bool_decide (is_Some (likes db !! (cinemaId p, tag, ReviewItem.id r,
                                                      uid (user p))))))
        list in
  fold_left (fun next rl => <[fst rl := snd rl]> next) pairs ∅.

(** The summary the page shows, computed from the list. *)
Module TagStats.
Record t : Type := mk {
  count : nat;
  avgOverall : Q;
}.
End TagStats.

Definition tagStats (v : View) (reviews : list ReviewItem.t) : option TagStats.t :=
  match tag_of v with
  | None => None
  | Some _ =>
      match reviews with
      | [] => Some {| TagStats.count := 0; TagStats.avgOverall := 0 |}
      | _ =>
          let n := length reviews in
          let avgOverall :=
            fold_left (fun acc r => acc + overallScore (ReviewItem.screen r)
                                            (ReviewItem.picture r) (ReviewItem.sound r)
                                            (ReviewItem.seat r))
                      reviews 0
            / inject_Z (Z.of_nat n) in
          Some {| TagStats.count := n; TagStats.avgOverall := avgOverall |}
      end
  end.

(** The documents of a snapshot of the reviews under [k]: those rows, each
    with its document id, in whatever order the query gives.  (The queries
    of the page order by [updatedAt], or by [likeCount] and [updatedAt];
    rows written by [saveMyReview] carry both.) *)
Definition snapshotOf (db : Db) (k : StatsRef) (docs : list (string * Review.t)) : Prop :=
  docs ≡ₚ map (fun kr => (snd (fst kr), snd kr)) (map_to_list (liveReviews db k)).

(** Every stored row carries the mean of its sub-scores as [overall]. *)
Definition overallIsMean (db : Db) : Prop :=
  forall ref r, reviews db !! ref = Some r -> storedOverall r = subscoreMean r.

(** ** Favorites *)

(** users/{uid}/favorites/{cinemaId} *)
Abbreviation FavoriteRef := (string * string)%type.

Module Favorite.
Record t : Type := mk {
  cinemaId : option string;
  createdAt : option Timestamp;
}.
End Favorite.

Definition merge_favorite (data old : Favorite.t) : Favorite.t :=
  {| Favorite.cinemaId := merge_field (Favorite.cinemaId data) (Favorite.cinemaId old);
     Favorite.createdAt := merge_field (Favorite.createdAt data) (Favorite.createdAt old) |}.

(** What the store decides for the two calls of [toggleFavorite], which
    are not in a transaction: the server time, and the error each call
    throws, if any. *)
Record FavEnv : Type := mkFavEnv {
  fav_now : Timestamp;
  getDoc_fault : option string;
  write_fault : option string;
}.

(** The two [useState] cells of the favorite button. *)
Record FavView : Type := mkFavView {
  isFavorite : bool;
  favBusy : bool;
}.

(** [toggleFavorite] of the detail page.  It has no [catch]: an error of
    the store is the rejection of the returned promise, the first component
    of the result. *)
Definition toggleFavorite (p : Props) (e : FavEnv) (v : FavView)
    (favs : gmap FavoriteRef Favorite.t)
  : option string * FavView * gmap FavoriteRef Favorite.t :=
  if decide (cinemaId p = "") then (None, v, favs)
  else
    let favRef := (uid (user p), cinemaId p) in
    match getDoc_fault e with
    | Some err => (Some err, {| isFavorite := isFavorite v; favBusy := false |}, favs)
    | None =>
        match favs !! favRef with
        | Some _ =>
            match write_fault e with
            | Some err =>
                (Some err, {| isFavorite := isFavorite v; favBusy := false |}, favs)
            | None =>
                (None, {| isFavorite := false; favBusy := false |}, delete favRef favs)
            end
        | None =>
            match write_fault e with
            | Some err =>
                (Some err, {| isFavorite := isFavorite v; favBusy := false |}, favs)
            | None =>
                (None, {| isFavorite := true; favBusy := false |},
                 <[favRef := set_merge merge_favorite
                               {| Favorite.cinemaId := Some (cinemaId p);
                                  Favorite.createdAt := Some (fav_now e) |}
                               (favs !! favRef)]> favs)
            end
        end
    end.

(** The page's [Theater]; [lat] and [lng] come from [Number(raw.lat)],
    which is [NaN] ([None]) when the field is missing. *)
Module Theater.
Record t : Type := mk {
  id : string;
  name : string;
  address : string;
  lat : option Q;
  lng : option Q;
  tags : option (list string);
}.
End Theater.

(** The cells of the Favorites page that [unfavorite] reads or sets. *)
Record FavoritesView : Type := mkFavoritesView {
  items : list Theater.t;
  removingId : option string;
  fav_error : option string;
}.

(** [unfavorite] of the Favorites page; [fault] is the error [deleteDoc]
    throws, if any. *)
Definition unfavorite (u : User) (fault : option string) (cinemaId : string)
    (v : FavoritesView) (favs : gmap FavoriteRef Favorite.t)
  : FavoritesView * gmap FavoriteRef Favorite.t :=
  match fault with
  | Some err =>
      ({| items := items v; removingId := None; fav_error := Some err |}, favs)
  | None =>
      ({| items := filter (fun x => Theater.id x <> cinemaId) (items v);
          removingId := None; fav_error := None |},
       delete (uid u, cinemaId) favs)
  end.

(** ** The ranking of the home page *)

Module RankItem.
Record t : Type := mk {
  cinemaId : string;
  cinemaName : string;
  tag : string;
  avgOverall : Q;
  count : Q;
}.
End RankItem.

(** What [loadRanking] does with one (theater, tag): nothing when the stats
    document is missing or its count is not positive, else one item. *)
Definition rankItemOf (db : Db) (t : Theater.t) (tag : string) : option RankItem.t :=
  match stats db !! (Theater.id t, tag) with
  | None => None
  | Some raw =>
      let avgOverall := Number (nullish (Stats.avgOverall raw) 0) in
      let count := Number (nullish (Stats.count raw) 0) in
      if Qlt_le_dec 0 count
      then Some {| RankItem.cinemaId := Theater.id t;
                   RankItem.cinemaName := Theater.name t;
                   RankItem.tag := tag;
                   RankItem.avgOverall := avgOverall;
                   RankItem.count := count |}
      else None
  end.

(** The items pushed for all theaters and tags, in the order of the
    theaters and of their tags.  The reads run concurrently, so the real
    order of the pushes is some permutation of this list. *)
Definition rankItems (db : Db) (theaters : list Theater.t) : list RankItem.t :=
  flat_map (fun t =>
              omap (rankItemOf db t)
                   (match Theater.tags t with Some tags => tags | None => [] end))
           theaters.

(** [l.sort(compare)]: the sort is stable, an item stays before a later
    one unless [compare] says it is greater. *)
Fixpoint sort_insert {A : Type} (compare : A -> A -> Q) (x : A) (sorted : list A)
  : list A :=
  match sorted with
  | [] => [x]
  | y :: ys =>
      if Qle_bool (compare x y) 0 then x :: y :: ys
      else y :: sort_insert compare x ys
  end.

Definition Array_sort {A : Type} (compare : A -> A -> Q) (l : list A) : list A :=
  foldr (sort_insert compare) [] l.

(** [items.sort((a, b) => b.avgOverall - a.avgOverall)] and
    [items.slice(0, 10)], on the items in the order they were pushed. *)
Definition rankingOf (items : list RankItem.t) : list RankItem.t :=
  Array_slice 0 10
    (Array_sort (fun a b => RankItem.avgOverall b - RankItem.avgOverall a) items).

(** ** Sign-up *)

(** The string built-ins [handleEmailAuth] calls, taken as given. *)
Record StringOps : Type := mkStringOps {
  trim : string -> string;
  toLowerCase : string -> string;
  String_length : string -> nat;
}.

(** nicknames/{nicknameLower} *)
Module NickDoc.
Record t : Type := mk {
  uid : option string;
  nickname : option string;
  createdAt : option Timestamp;
}.
End NickDoc.

(** users/{uid} *)
Module UserDoc.
Record t : Type := mk {
  uid : option string;
  email : option string;
  nickname : option string;
  createdAt : option Timestamp;
}.
End UserDoc.

Definition merge_user (data old : UserDoc.t) : UserDoc.t :=
  {| UserDoc.uid := merge_field (UserDoc.uid data) (UserDoc.uid old);
     UserDoc.email := merge_field (UserDoc.email data) (UserDoc.email old);
     UserDoc.nickname := merge_field (UserDoc.nickname data) (UserDoc.nickname old);
     UserDoc.createdAt := merge_field (UserDoc.createdAt data) (UserDoc.createdAt old) |}.

Record UserStore : Type := mkUserStore {
  nicknames : gmap string NickDoc.t;
  users : gmap string UserDoc.t;
}.

(** The [cred.user] of a created account. *)
Record Credential : Type := mkCredential {
  cred_uid : string;
  cred_email : option string;
}.

(** The cells of the sign-in form. *)
Record AuthForm : Type := mkAuthForm {
  form_email : string;
  form_password : string;
  passwordConfirm : string;
  nickname : string;
  isSignUp : bool;
}.

(** What Firebase decides for one call: the account creation returns a
    credential or throws, and the sign-in, the reservation transaction and
    the profile update may each throw (the text is the message shown). *)
Record AuthEnv : Type := mkAuthEnv {
  auth_now : Timestamp;
  createUser : string + Credential;
  signIn_fault : option string;
  reserve_fault : option string;
  updateProfile_fault : option string;
}.

(** What the call did outside the document store. *)
Record AuthEffects : Type := mkAuthEffects {
  accountCreated : option Credential;
  signedIn : bool;
  displayNameSet : option string;
}.

Definition no_effects : AuthEffects :=
  {| accountCreated := None; signedIn := false; displayNameSet := None |}.

Definition nickname_taken : string := "이미 사용 중인 닉네임입니다.".

(** [handleEmailAuth]: the error left in the form, the effects on the
    accounts, and the document store. *)
Definition handleEmailAuth (js : StringOps) (e : AuthEnv) (f : AuthForm) (st : UserStore)
  : option string * AuthEffects * UserStore :=
  if isSignUp f then
    let nick := trim js (nickname f) in
    if decide (nick = "") then (Some "닉네임을 입력해주세요.", no_effects, st)
    else if (String_length js nick <? 2)%nat
    then (Some "닉네임은 2글자 이상으로 입력해주세요.", no_effects, st)
    else if decide (passwordConfirm f <> form_password f)
    then (Some "비밀번호가 일치하지 않습니다.", no_effects, st)
    else
      match createUser e with
      | inl err => (Some err, no_effects, st)
      | inr cred =>
          let created :=
            {| accountCreated := Some cred; signedIn := false; displayNameSet := None |} in
          let nickKey := toLowerCase js nick in
          match reserve_fault e with
          | Some err => (Some err, created, st)
          | None =>
              match nicknames st !! nickKey with
              | Some _ => (Some nickname_taken, created, st)
              | None =>
                  let st' :=
                    {| nicknames :=
                         <[nickKey := {| NickDoc.uid := Some (cred_uid cred);
                                         NickDoc.nickname := Some nick;
                                         NickDoc.createdAt := Some (auth_now e) |}]>
                           (nicknames st);
                       users :=
                         <[cred_uid cred :=
                             set_merge merge_user
                               {| UserDoc.uid := Some (cred_uid cred);
                                  UserDoc.email :=
                                    Some match cred_email cred with
                                         | Some m => m
                                         | None => form_email f
                                         end;
                                  UserDoc.nickname := Some nick;
                                  UserDoc.createdAt := Some (auth_now e) |}
                               (users st !! cred_uid cred)]> (users st) |} in
                  match updateProfile_fault e with
                  | Some err => (Some err, created, st')
                  | None =>
                      (None,
                       {| accountCreated := Some cred; signedIn := false;
                          displayNameSet := Some nick |},
                       st')
                  end
              end
          end
      end
  else
    match signIn_fault e with
    | Some err => (Some err, no_effects, st)
    | None =>
        (None, {| accountCreated := None; signedIn := true; displayNameSet := None |}, st)
    end.

(** A sequence of calls, each with what Firebase decided and the form. *)
Definition authCalls (js : StringOps) (calls : list (AuthEnv * AuthForm)) (st : UserStore)
  : UserStore :=
  fold_left (fun st c => snd (handleEmailAuth js (fst c) (snd c) st)) calls st.

(** A stand-in for the built-ins, right on strings without surrounding
    blanks, already in lower case and made of one-byte characters; used in
    the examples only. *)
Definition sampleOps : StringOps :=
  {| trim := fun s => s; toLowerCase := fun s => s; String_length := String.length |}.

Definition signUpForm (nick : string) : AuthForm :=
  {| form_email := "a@example.org"; form_password := "secret";
     passwordConfirm := "secret"; nickname := nick; isSignUp := true |}.

Definition accountEnv (n : Timestamp) (u : string) : AuthEnv :=
  {| auth_now := n; createUser := inr {| cred_uid := u; cred_email := None |};
     signIn_fault := None; reserve_fault := None; updateProfile_fault := None |}.

Definition emptyUserStore : UserStore := {| nicknames := ∅; users := ∅ |}.

(** ** What each handler does to the database *)

Section Effects.
Variables (p : Props) (e : Env) (v : View) (db : Db).

Lemma saveMyReview_no_tag : tag_of v = None -> saveMyReview p e v db = (v, db).
Proof. intros H. unfold saveMyReview. now rewrite H. Qed.

Lemma deleteMyReview_no_tag : tag_of v = None -> deleteMyReview p e v db = (v, db).
Proof. intros H. unfold deleteMyReview. now rewrite H. Qed.

Lemma toggleLike_no_tag rid : tag_of v = None -> toggleLike p e rid v db = (v, db).
Proof. intros H. unfold toggleLike. now rewrite H. Qed.

Lemma toggleLike_busy rid : flag (likeBusy v) rid = true -> toggleLike p e rid v db = (v, db).
Proof. intros H. unfold toggleLike. rewrite H. now destruct (tag_of v). Qed.

Lemma saveMyReview_fault err : fault e = Some err -> snd (saveMyReview p e v db) = db.
Proof.
  intros H. unfold saveMyReview, runTransaction.
  destruct (tag_of v); [|reflexivity]. now rewrite H.
Qed.

Lemma deleteMyReview_fault err : fault e = Some err -> snd (deleteMyReview p e v db) = db.
Proof.
  intros H. unfold deleteMyReview, runTransaction.
  destruct (tag_of v); [|reflexivity]. now rewrite H.
Qed.

Lemma toggleLike_fault rid err : fault e = Some err -> snd (toggleLike p e rid v db) = db.
Proof.
  intros H. unfold toggleLike, runTransaction.
  destruct (tag_of v); [|reflexivity].
  destruct (flag _ _); [reflexivity|]. now rewrite H.
Qed.

(** Create: no row under the author's key. *)
Lemma saveMyReview_create tag :
  tag_of v = Some tag -> fault e = None ->
  reviews db !! (cinemaId p, tag, uid (user p)) = None ->
  snd (saveMyReview p e v db) =
    let c := statsCount db (cinemaId p, tag) + 1 in
    let s := statsSum db (cinemaId p, tag) + formOverall (myReview v) in
    {| reviews :=
         <[(cinemaId p, tag, uid (user p)) :=
             {| Review.userId := Some (uid (user p));
                Review.displayName := Some (name_of (user p));
                Review.screen := Some (Num (ReviewForm.screen (myReview v)));
                Review.picture := Some (Num (ReviewForm.picture (myReview v)));
                Review.sound := Some (Num (ReviewForm.sound (myReview v)));
                Review.seat := Some (Num (ReviewForm.seat (myReview v)));
                Review.overall := Some (Num (formOverall (myReview v)));
                Review.comment := Some (ReviewForm.comment (myReview v));
                Review.updatedAt := Some (now e);
                Review.likeCount := Some (Num 0);
                Review.createdAt := Some (now e) |}]> (reviews db);
       stats :=
         <[(cinemaId p, tag) :=
             {| Stats.count := Some (Num c);
                Stats.sumOverall := Some (Num s);
                Stats.avgOverall := Some (Num (if strict_eq c 0 then 0 else s / c));
                Stats.updatedAt := Some (now e) |}]> (stats db);
       likes := likes db |}.
Proof.
  intros Htag Hf Hr.
  unfold saveMyReview, runTransaction, saveMyReview_tx, tx_bind,
    tx_get_review, tx_get_stats, tx_write, statsCount, statsSum.
  rewrite Htag, Hf. cbn -[Qplus Qdiv Qminus strict_eq]. rewrite Hr.
  cbn -[Qplus Qdiv Qminus strict_eq]. rewrite Hr.
  destruct (stats db !! (cinemaId p, tag)) as [s0|] eqn:Hs;
    cbn -[Qplus Qdiv Qminus strict_eq]; rewrite ?Hs; reflexivity.
Qed.

(** Update: a row [prev] is stored under the author's key. *)
Lemma saveMyReview_update tag prev :
  tag_of v = Some tag -> fault e = None ->
  reviews db !! (cinemaId p, tag, uid (user p)) = Some prev ->
  snd (saveMyReview p e v db) =
    let c := statsCount db (cinemaId p, tag) in
    let s := statsSum db (cinemaId p, tag) +
             (formOverall (myReview v) - readOverall prev) in
    {| reviews :=
         <[(cinemaId p, tag, uid (user p)) :=
             {| Review.userId := Some (uid (user p));
                Review.displayName := Some (name_of (user p));
                Review.screen := Some (Num (ReviewForm.screen (myReview v)));
                Review.picture := Some (Num (ReviewForm.picture (myReview v)));
                Review.sound := Some (Num (ReviewForm.sound (myReview v)));
                Review.seat := Some (Num (ReviewForm.seat (myReview v)));
                Review.overall := Some (Num (formOverall (myReview v)));
                Review.comment := Some (ReviewForm.comment (myReview v));
                Review.updatedAt := Some (now e);
                Review.likeCount :=
                  Some (Num (Number (nullish (Review.likeCount prev) 0)));
                Review.createdAt := Review.createdAt prev |}]> (reviews db);
       stats :=
         <[(cinemaId p, tag) :=
             {| Stats.count := Some (Num c);
                Stats.sumOverall := Some (Num s);
                Stats.avgOverall := Some (Num (if strict_eq c 0 then 0 else s / c));
                Stats.updatedAt := Some (now e) |}]> (stats db);
       likes := likes db |}.
Proof.
  intros Htag Hf Hr.
  unfold saveMyReview, runTransaction, saveMyReview_tx, tx_bind,
    tx_get_review, tx_get_stats, tx_write, statsCount, statsSum, readOverall,
    subscoreMean.
  rewrite Htag, Hf. cbn -[Qplus Qdiv Qminus strict_eq]. rewrite Hr.
  cbn -[Qplus Qdiv Qminus strict_eq]. rewrite Hr.
  destruct (stats db !! (cinemaId p, tag)) as [s0|] eqn:Hs;
    cbn -[Qplus Qdiv Qminus strict_eq]; rewrite ?Hs;
    destruct (Review.overall prev); reflexivity.
Qed.

(** Deleting when no row is stored writes nothing. *)
Lemma deleteMyReview_absent tag :
  tag_of v = Some tag ->
  reviews db !! (cinemaId p, tag, uid (user p)) = None ->
  snd (deleteMyReview p e v db) = db.
Proof.
  intros Htag Hr.
  unfold deleteMyReview, runTransaction, deleteMyReview_tx, tx_bind,
    tx_get_review, tx_ret.
  rewrite Htag. destruct (fault e); [reflexivity|].
  cbn. now rewrite Hr.
Qed.

Lemma deleteMyReview_present tag prev :
  tag_of v = Some tag -> fault e = None ->
  reviews db !! (cinemaId p, tag, uid (user p)) = Some prev ->
  snd (deleteMyReview p e v db) =
    let c := Math_max 0 (statsCount db (cinemaId p, tag) - 1) in
    let s := if strict_eq c 0 then 0
             else statsSum db (cinemaId p, tag) - readOverall prev in
    {| reviews := delete (cinemaId p, tag, uid (user p)) (reviews db);
       stats :=
         <[(cinemaId p, tag) :=
             {| Stats.count := Some (Num c);
                Stats.sumOverall := Some (Num s);
                Stats.avgOverall := Some (Num (if strict_eq c 0 then 0 else s / c));
                Stats.updatedAt := Some (now e) |}]> (stats db);
       likes := likes db |}.
Proof.
  intros Htag Hf Hr.
  unfold deleteMyReview, runTransaction, deleteMyReview_tx, tx_bind,
    tx_get_review, tx_get_stats, tx_write, statsCount, statsSum, readOverall,
    subscoreMean.
  rewrite Htag, Hf. cbn -[Qplus Qdiv Qminus strict_eq Math_max]. rewrite Hr.
  cbn -[Qplus Qdiv Qminus strict_eq Math_max].
  destruct (stats db !! (cinemaId p, tag)) as [s0|] eqn:Hs;
    cbn -[Qplus Qdiv Qminus strict_eq Math_max]; rewrite ?Hs;
    destruct (Review.overall prev); reflexivity.
Qed.

Lemma toggleLike_unlike tag rid l :
  tag_of v = Some tag -> flag (likeBusy v) rid = false -> fault e = None ->
  likes db !! (cinemaId p, tag, rid, uid (user p)) = Some l ->
  snd (toggleLike p e rid v db) =
    {| reviews :=
         <[(cinemaId p, tag, rid) :=
             withLikeCount (Math_max 0 (likeCountOf db (cinemaId p, tag, rid) - 1))
                           (reviews db !! (cinemaId p, tag, rid))]> (reviews db);
       stats := stats db;
       likes := delete (cinemaId p, tag, rid, uid (user p)) (likes db) |}.
Proof.
  intros Htag Hb Hf Hl.
  unfold toggleLike, runTransaction, toggleLike_tx, tx_bind,
    tx_get_review, tx_get_like, tx_write, likeCountOf.
  rewrite Htag, Hb, Hf. cbn -[Qplus Qminus Math_max]. rewrite Hl.
  cbn -[Qplus Qminus Math_max].
  destruct (reviews db !! (cinemaId p, tag, rid)) as [r|]; reflexivity.
Qed.

Lemma toggleLike_like tag rid :
  tag_of v = Some tag -> flag (likeBusy v) rid = false -> fault e = None ->
  likes db !! (cinemaId p, tag, rid, uid (user p)) = None ->
  snd (toggleLike p e rid v db) =
    {| reviews :=
         <[(cinemaId p, tag, rid) :=
             withLikeCount (likeCountOf db (cinemaId p, tag, rid) + 1)
                           (reviews db !! (cinemaId p, tag, rid))]> (reviews db);
       stats := stats db;
       likes := <[(cinemaId p, tag, rid, uid (user p)) :=
                    {| Like.createdAt := Some (now e) |}]> (likes db) |}.
Proof.
  intros Htag Hb Hf Hl.
  unfold toggleLike, runTransaction, toggleLike_tx, tx_bind,
    tx_get_review, tx_get_like, tx_write, likeCountOf.
  rewrite Htag, Hb, Hf. cbn -[Qplus Qminus Math_max]. rewrite Hl.
  cbn -[Qplus Qminus Math_max]. rewrite Hl.
  destruct (reviews db !! (cinemaId p, tag, rid)) as [r|]; reflexivity.
Qed.
End Effects.

(** ** Reading back what was just written *)

Section ReadBack.
Variables (rv : gmap ReviewRef Review.t) (st : gmap StatsRef Stats.t)
          (lk : gmap LikeRef Like.t).

Lemma statsCount_insert_eq ref s :
  statsCount (mkDb rv (<[ref := s]> st) lk) ref = Number (nullish (Stats.count s) 0).
Proof. unfold statsCount. cbn [stats]. now rewrite lookup_insert_eq. Qed.

Lemma statsSum_insert_eq ref s :
  statsSum (mkDb rv (<[ref := s]> st) lk) ref = Number (nullish (Stats.sumOverall s) 0).
Proof. unfold statsSum. cbn [stats]. now rewrite lookup_insert_eq. Qed.

Lemma statsAvg_insert_eq ref s :
  statsAvg (mkDb rv (<[ref := s]> st) lk) ref = Number (nullish (Stats.avgOverall s) 0).
Proof. unfold statsAvg. cbn [stats]. now rewrite lookup_insert_eq. Qed.

Lemma statsCount_insert_ne ref ref' s :
  ref <> ref' ->
  statsCount (mkDb rv (<[ref := s]> st) lk) ref' = statsCount (mkDb rv st lk) ref'.
Proof. intros H. unfold statsCount. cbn [stats]. now rewrite lookup_insert_ne. Qed.

Lemma statsSum_insert_ne ref ref' s :
  ref <> ref' ->
  statsSum (mkDb rv (<[ref := s]> st) lk) ref' = statsSum (mkDb rv st lk) ref'.
Proof. intros H. unfold statsSum. cbn [stats]. now rewrite lookup_insert_ne. Qed.

Lemma statsAvg_insert_ne ref ref' s :
  ref <> ref' ->
  statsAvg (mkDb rv (<[ref := s]> st) lk) ref' = statsAvg (mkDb rv st lk) ref'.
Proof. intros H. unfold statsAvg. cbn [stats]. now rewrite lookup_insert_ne. Qed.

Lemma likeCountOf_insert_eq ref r :
  likeCountOf (mkDb (<[ref := r]> rv) st lk) ref = Number (nullish (Review.likeCount r) 0).
Proof. unfold likeCountOf. cbn [reviews]. now rewrite lookup_insert_eq. Qed.
End ReadBack.

(** The row stored by [saveMyReview], whichever branch is taken. *)
Lemma stored_row_of_saveMyReview (p : Props) (e : Env) (v : View) (db : Db) (tag : string) :
  tag_of v = Some tag -> fault e = None ->
  exists r',
    reviews (snd (saveMyReview p e v db)) !! (cinemaId p, tag, uid (user p)) = Some r' /\
    Review.screen r' = Some (Num (ReviewForm.screen (myReview v))) /\
    Review.picture r' = Some (Num (ReviewForm.picture (myReview v))) /\
    Review.sound r' = Some (Num (ReviewForm.sound (myReview v))) /\
    Review.seat r' = Some (Num (ReviewForm.seat (myReview v))) /\
    Review.overall r' = Some (Num (formOverall (myReview v))).
Proof.
  intros Htag Hf.
  destruct (reviews db !! (cinemaId p, tag, uid (user p))) as [prev|] eqn:Hr.
  - rewrite (saveMyReview_update p e v db tag prev Htag Hf Hr).
    cbn zeta. cbn [reviews]. rewrite lookup_insert_eq.
    eexists; split; [reflexivity|]. repeat split; reflexivity.
  - rewrite (saveMyReview_create p e v db tag Htag Hf Hr).
    cbn zeta. cbn [reviews]. rewrite lookup_insert_eq.
    eexists; split; [reflexivity|]. repeat split; reflexivity.
Qed.

(** ** The stats delta of an upsert *)

(** C3: with a tag selected and the store committing, [saveMyReview] writes
    the stats document from what it read.  The snapshot is count 0 and sum 0
    when the stats document is missing; the previous overall is [null]
    ([None]) when the author has no row.  In that case, the create, the
    new count is [count + 1] and the new sum [sumOverall + newOverall];
    otherwise the count is unchanged and the new sum is
    [sumOverall + (newOverall - oldOverall)]. *)
Theorem saveMyReview_stats_delta (p : Props) (e : Env) (v : View) (db : Db) (tag : string) :
  tag_of v = Some tag -> fault e = None ->
  let sref := (cinemaId p, tag) in
  let db' := snd (saveMyReview p e v db) in
  let newOverall := formOverall (myReview v) in
  let count :=
    match stats db !! sref with
    | Some s => Number (nullish (Stats.count s) 0)
    | None => 0
    end in
  let sumOverall :=
    match stats db !! sref with
    | Some s => Number (nullish (Stats.sumOverall s) 0)
    | None => 0
    end in
  let oldOverall : option Q :=
    match reviews db !! (cinemaId p, tag, uid (user p)) with
    | Some prev => Some (readOverall prev)
    | None => None
    end in
  exists s', stats db' !! sref = Some s' /\
    match oldOverall with
    | None =>
        Stats.count s' = Some (Num (count + 1)) /\
        Stats.sumOverall s' = Some (Num (sumOverall + newOverall))
    | Some old =>
        Stats.count s' = Some (Num count) /\
        Stats.sumOverall s' = Some (Num (sumOverall + (newOverall - old)))
    end.
Proof.
  intros Htag Hf sref db' newOverall count sumOverall oldOverall.
  subst db' oldOverall.
  destruct (reviews db !! (cinemaId p, tag, uid (user p))) as [prev|] eqn:Hr.
  - rewrite (saveMyReview_update p e v db tag prev Htag Hf Hr).
    cbn zeta. cbn [stats]. rewrite lookup_insert_eq.
    eexists; split; [reflexivity|]. split; reflexivity.
  - rewrite (saveMyReview_create p e v db tag Htag Hf Hr).
    cbn zeta. cbn [stats]. rewrite lookup_insert_eq.
    eexists; split; [reflexivity|]. split; reflexivity.
Qed.

Lemma saveMyReview_stats_delta_witness :
  exists s', stats dbOneReview !! ("S", "T") = Some s' /\
    Stats.count s' = Some (Num (0 + 1)) /\
    Stats.sumOverall s' = Some (Num (0 + formOverall (scores 4 4 4 4))).
Proof.
  exact (saveMyReview_stats_delta propsA (at_time 1) (viewT (scores 4 4 4 4))
           empty_db "T" eq_refl eq_refl).
Defined.

(** ** The stats reversal of a delete *)

(** C4: deleting a stored row [prev] removes it and writes the stats
    document with [count = max(0, count - 1)], [sumOverall - oldOverall]
    forced to [0] when the new count is [0], and
    [avgOverall = count == 0 ? 0 : sumOverall / count]. *)
Theorem deleteMyReview_stats_reversal (p : Props) (e : Env) (v : View) (db : Db)
    (tag : string) (prev : Review.t) :
  tag_of v = Some tag -> fault e = None ->
  reviews db !! (cinemaId p, tag, uid (user p)) = Some prev ->
  let sref := (cinemaId p, tag) in
  let db' := snd (deleteMyReview p e v db) in
  let count := Math_max 0 (statsCount db sref - 1) in
  let sumOverall :=
    if strict_eq count 0 then 0 else statsSum db sref - readOverall prev in
  reviews db' !! (cinemaId p, tag, uid (user p)) = None /\
  stats db' !! sref =
    Some {| Stats.count := Some (Num count);
            Stats.sumOverall := Some (Num sumOverall);
            Stats.avgOverall :=
              Some (Num (if strict_eq count 0 then 0 else sumOverall / count));
            Stats.updatedAt := Some (now e) |}.
Proof.
  intros Htag Hf Hr sref db' count sumOverall. subst db'.
  rewrite (deleteMyReview_present p e v db tag prev Htag Hf Hr).
  cbn zeta. cbn [reviews stats]. split.
  - apply lookup_delete_eq.
  - now rewrite lookup_insert_eq.
Qed.

Lemma deleteMyReview_stats_reversal_witness :
  reviews (stepReview dbOneReview (Delete propsA (at_time 2) (viewT emptyForm)))
    !! ("S", "T", "A") = None /\
  exists s',
    stats (stepReview dbOneReview (Delete propsA (at_time 2) (viewT emptyForm)))
      !! ("S", "T") = Some s' /\
    Stats.count s' = Some (Num (Math_max 0 (statsCount dbOneReview ("S", "T") - 1))) /\
    Stats.sumOverall s' = Some (Num 0).
Proof.
  destruct (deleteMyReview_stats_reversal propsA (at_time 2) (viewT emptyForm)
              dbOneReview "T" _ eq_refl eq_refl eq_refl) as [H1 H2].
  split; [exact H1|].
  eexists. split; [exact H2|]. split; reflexivity.
Defined.

(** ** The like toggle *)

(** C5: when [toggleLike] runs (a tag is selected, no toggle of this review
    is in flight, the store commits), a stored like record is deleted and
    the review's counter becomes [max(0, likeCount - 1)]; a missing record is
    created and the counter becomes [likeCount + 1].  Both writes belong to
    the write set of the single transaction the handler commits. *)
Theorem toggleLike_ledger (p : Props) (e : Env) (rid : string) (v : View) (db : Db)
    (tag : string) :
  tag_of v = Some tag -> flag (likeBusy v) rid = false -> fault e = None ->
  let rref := (cinemaId p, tag, rid) in
  let lref := (cinemaId p, tag, rid, uid (user p)) in
  let db' := snd (toggleLike p e rid v db) in
  db' = commit db (writes_of (toggleLike_tx e rref lref) db) /\
  match likes db !! lref with
  | Some _ =>
      (exists data,
         writes_of (toggleLike_tx e rref lref) db =
           [DeleteLike lref; SetReview rref data] /\
         Review.likeCount data = Some (Num (Math_max 0 (likeCountOf db rref - 1)))) /\
      likes db' !! lref = None /\
      likeCountOf db' rref = Math_max 0 (likeCountOf db rref - 1)
  | None =>
      (exists data,
         writes_of (toggleLike_tx e rref lref) db =
           [SetLike lref {| Like.createdAt := Some (now e) |}; SetReview rref data] /\
         Review.likeCount data = Some (Num (likeCountOf db rref + 1))) /\
      likes db' !! lref = Some {| Like.createdAt := Some (now e) |} /\
      likeCountOf db' rref = likeCountOf db rref + 1
  end.
Proof.
  intros Htag Hb Hf rref lref db'. split.
  - subst db'. unfold toggleLike, runTransaction, writes_of.
    rewrite Htag, Hb, Hf. subst rref lref.
    now destruct (toggleLike_tx e _ _ db []).
  - destruct (likes db !! lref) as [l|] eqn:Hl.
    + split; [|split].
      * unfold writes_of, toggleLike_tx, tx_bind, tx_get_like, tx_get_review,
          tx_write, likeCountOf.
        cbn -[Qplus Qminus Math_max]. fold lref. rewrite Hl.
        eexists; split; reflexivity.
      * subst db'. rewrite (toggleLike_unlike p e v db tag rid l Htag Hb Hf Hl).
        cbn [likes]. apply lookup_delete_eq.
      * subst db'. rewrite (toggleLike_unlike p e v db tag rid l Htag Hb Hf Hl).
        unfold likeCountOf at 1. cbn [reviews]. now rewrite lookup_insert_eq.
    + split; [|split].
      * unfold writes_of, toggleLike_tx, tx_bind, tx_get_like, tx_get_review,
          tx_write, likeCountOf.
        cbn -[Qplus Qminus Math_max]. fold lref. rewrite Hl.
        eexists; split; reflexivity.
      * subst db'. rewrite (toggleLike_like p e v db tag rid Htag Hb Hf Hl).
        cbn [likes]. apply lookup_insert_eq.
      * subst db'. rewrite (toggleLike_like p e v db tag rid Htag Hb Hf Hl).
        unfold likeCountOf at 1. cbn [reviews]. now rewrite lookup_insert_eq.
Qed.

Lemma toggleLike_ledger_witness :
  likes dbLiked !! ("S", "T", "A", "B") = Some {| Like.createdAt := Some 2%nat |} /\
  likeCountOf dbLiked ("S", "T", "A") = likeCountOf dbOneReview ("S", "T", "A") + 1.
Proof.
  destruct (toggleLike_ledger propsB (at_time 2) "A" (viewT emptyForm) dbOneReview
              "T" eq_refl eq_refl eq_refl) as [_ H].
  change (likes dbOneReview !! ("S", "T", "A", uid (user propsB)))
    with (@None Like.t) in H.
  destruct H as (_ & H1 & H2). split; [exact H1 | exact H2].
Defined.

(** ** The stored review row *)

(** C7: the row [saveMyReview] leaves under the author's key holds the four
    submitted sub-scores and [overall], their arithmetic mean.  When no row
    existed it is a create: [likeCount] is [0] and [createdAt] is the commit
    time.  When a row [prev] existed it is an update: the like counter read
    from [prev] is written back, [createdAt] is kept and [updatedAt] is the
    commit time. *)
Theorem saveMyReview_stored_row (p : Props) (e : Env) (v : View) (db : Db) (tag : string) :
  tag_of v = Some tag -> fault e = None ->
  let rref := (cinemaId p, tag, uid (user p)) in
  let db' := snd (saveMyReview p e v db) in
  let f := myReview v in
  exists r', reviews db' !! rref = Some r' /\
    Review.screen r' = Some (Num (ReviewForm.screen f)) /\
    Review.picture r' = Some (Num (ReviewForm.picture f)) /\
    Review.sound r' = Some (Num (ReviewForm.sound f)) /\
    Review.seat r' = Some (Num (ReviewForm.seat f)) /\
    Review.overall r' =
      Some (Num ((ReviewForm.screen f + ReviewForm.picture f +
                  ReviewForm.sound f + ReviewForm.seat f) / 4)) /\
    Review.updatedAt r' = Some (now e) /\
    match reviews db !! rref with
    | None =>
        Review.likeCount r' = Some (Num 0) /\
        Review.createdAt r' = Some (now e)
    | Some prev =>
        Review.likeCount r' = Some (Num (Number (nullish (Review.likeCount prev) 0))) /\
        likeCountOf db' rref = likeCountOf db rref /\
        Review.createdAt r' = Review.createdAt prev
    end.
Proof.
  intros Htag Hf rref db' f. subst db'.
  destruct (reviews db !! rref) as [prev|] eqn:Hr.
  - rewrite (saveMyReview_update p e v db tag prev Htag Hf Hr).
    unfold likeCountOf. cbn zeta. cbn [reviews]. fold rref.
    rewrite lookup_insert_eq, Hr.
    eexists; split; [reflexivity|]. repeat split; reflexivity.
  - rewrite (saveMyReview_create p e v db tag Htag Hf Hr).
    cbn zeta. cbn [reviews]. fold rref. rewrite lookup_insert_eq.
    eexists; split; [reflexivity|]. repeat split; reflexivity.
Qed.

Lemma saveMyReview_stored_row_witness :
  exists r', reviews dbOneReview !! ("S", "T", "A") = Some r' /\
    Review.overall r' = Some (Num ((4 + 4 + 4 + 4) / 4)) /\
    Review.likeCount r' = Some (Num 0) /\
    Review.createdAt r' = Some 1%nat.
Proof.
  destruct (saveMyReview_stored_row propsA (at_time 1) (viewT (scores 4 4 4 4))
              empty_db "T" eq_refl eq_refl)
    as (r' & H & _ & _ & _ & _ & Ho & _ & Hl & Hc).
  exists r'. repeat split; assumption.
Defined.

(** ** Rows without a stored overall *)

(** C10: when the stored row has no [overall] field, the upsert and the
    delete both take as previous overall the mean of the stored sub-scores,
    a missing sub-score counting [0], and apply the stats delta with it. *)
Theorem legacy_row_fallback (p : Props) (e : Env) (v : View) (db : Db)
    (tag : string) (prev : Review.t) :
  tag_of v = Some tag -> fault e = None ->
  reviews db !! (cinemaId p, tag, uid (user p)) = Some prev ->
  Review.overall prev = None ->
  let sref := (cinemaId p, tag) in
  let oldOverall :=
    (Number (nullish (Review.screen prev) 0) + Number (nullish (Review.picture prev) 0) +
     Number (nullish (Review.sound prev) 0) + Number (nullish (Review.seat prev) 0)) / 4 in
  let saved := snd (saveMyReview p e v db) in
  let deleted := snd (deleteMyReview p e v db) in
  let count := Math_max 0 (statsCount db sref - 1) in
  (statsCount saved sref = statsCount db sref /\
   statsSum saved sref = statsSum db sref + (formOverall (myReview v) - oldOverall)) /\
  (statsCount deleted sref = count /\
   statsSum deleted sref =
     if strict_eq count 0 then 0 else statsSum db sref - oldOverall).
Proof.
  intros Htag Hf Hr Ho sref oldOverall saved deleted count.
  assert (Hold : readOverall prev = oldOverall).
  { unfold readOverall. now rewrite Ho. }
  subst saved deleted. split.
  - rewrite (saveMyReview_update p e v db tag prev Htag Hf Hr).
    cbn zeta. rewrite statsCount_insert_eq, statsSum_insert_eq, Hold.
    split; reflexivity.
  - rewrite (deleteMyReview_present p e v db tag prev Htag Hf Hr).
    cbn zeta. rewrite statsCount_insert_eq, statsSum_insert_eq, Hold.
    split; reflexivity.
Qed.

Lemma legacy_row_fallback_witness :
  statsSum (snd (saveMyReview propsA (at_time 9) (viewT (scores 5 5 5 5)) dbLegacy))
    ("S", "T") = 5 + (formOverall (scores 5 5 5 5) - (4 + 2 + 2 + 0) / 4) /\
  statsSum (snd (deleteMyReview propsA (at_time 9) (viewT (scores 5 5 5 5)) dbLegacy))
    ("S", "T") = 5 - (4 + 2 + 2 + 0) / 4.
Proof.
  destruct (legacy_row_fallback propsA (at_time 9) (viewT (scores 5 5 5 5)) dbLegacy
              "T" legacyRow eq_refl eq_refl eq_refl eq_refl)
    as [[_ Hs] [_ Hd]].
  split; [exact Hs | exact Hd].
Defined.

(** ** Validation *)

(** C2, as the specification states it, fails: a form whose first sub-score
    is 7 is not rejected.  The call reports no error, the row is stored with
    the score 7 and the stats document is created. *)
Lemma saveMyReview_validation_counterexample :
  validForm (scores 7 4 4 4) = false /\
  error (fst (saveMyReview propsA (at_time 1) (viewT (scores 7 4 4 4)) empty_db)) = None /\
  (Review.screen <$>
     reviews (snd (saveMyReview propsA (at_time 1) (viewT (scores 7 4 4 4)) empty_db))
       !! ("S", "T", "A")) = Some (Some (Num 7)) /\
  reviews empty_db !! ("S", "T", "A") = None /\
  stats empty_db !! ("S", "T") = None /\
  is_Some (stats (snd (saveMyReview propsA (at_time 1) (viewT (scores 7 4 4 4)) empty_db))
             !! ("S", "T")).
Proof.
  repeat split; try reflexivity. vm_compute. eexists; reflexivity.
Qed.

(** C2, amended: [saveMyReview] checks nothing about the sub-scores.  With a
    tag selected and the store committing, any form, valid or not, is
    stored as submitted, with the mean of its sub-scores as [overall], and
    no error is reported.  The only call stopped before the transaction is
    one without a selected tag: it returns with the component state and the
    database unchanged. *)
Theorem saveMyReview_no_score_check (p : Props) (e : Env) (v : View) (db : Db) :
  match tag_of v with
  | None => saveMyReview p e v db = (v, db)
  | Some tag =>
      fault e = None ->
      error (fst (saveMyReview p e v db)) = None /\
      exists r',
        reviews (snd (saveMyReview p e v db)) !! (cinemaId p, tag, uid (user p)) = Some r' /\
        Review.screen r' = Some (Num (ReviewForm.screen (myReview v))) /\
        Review.picture r' = Some (Num (ReviewForm.picture (myReview v))) /\
        Review.sound r' = Some (Num (ReviewForm.sound (myReview v))) /\
        Review.seat r' = Some (Num (ReviewForm.seat (myReview v))) /\
        Review.overall r' = Some (Num (formOverall (myReview v)))
  end.
Proof.
  destruct (tag_of v) as [tag|] eqn:Htag.
  - intros Hf. split.
    + unfold saveMyReview, runTransaction. rewrite Htag, Hf.
      now destruct (saveMyReview_tx _ _ _ _ _ _ db []).
    + destruct (stored_row_of_saveMyReview p e v db tag Htag Hf)
        as (r' & H & H1 & H2 & H3 & H4 & H5).
      exists r'. repeat split; assumption.
  - now apply saveMyReview_no_tag.
Qed.

Lemma saveMyReview_no_score_check_witness :
  error (fst (saveMyReview propsA (at_time 1) (viewT (scores 7 4 4 4)) empty_db)) = None /\
  exists r',
    reviews (snd (saveMyReview propsA (at_time 1) (viewT (scores 7 4 4 4)) empty_db))
      !! ("S", "T", "A") = Some r' /\
    Review.screen r' = Some (Num 7).
Proof.
  destruct (saveMyReview_no_score_check propsA (at_time 1) (viewT (scores 7 4 4 4))
              empty_db eq_refl) as (He & r' & H & H1 & _).
  split; [exact He|]. exists r'. split; [exact H | exact H1].
Defined.

(** ** Operations on a review that does not exist *)

(** The component state a completed [toggleLike] leaves behind still has the
    tag selected and the in-flight flag of the review cleared. *)
Lemma toggleLike_view (p : Props) (e : Env) (rid : string) (v : View) (db : Db)
    (tag : string) :
  tag_of v = Some tag -> flag (likeBusy v) rid = false ->
  tag_of (fst (toggleLike p e rid v db)) = Some tag /\
  flag (likeBusy (fst (toggleLike p e rid v db))) rid = false.
Proof.
  intros Htag Hb. unfold toggleLike. rewrite Htag, Hb.
  destruct (runTransaction e _ db) as [[err|a] db']; cbn;
    (split; [exact Htag | unfold flag; now rewrite lookup_insert_eq]).
Qed.

Lemma toggleLike_no_error (p : Props) (e : Env) (rid : string) (v : View) (db : Db)
    (tag : string) :
  tag_of v = Some tag -> flag (likeBusy v) rid = false -> fault e = None ->
  error (fst (toggleLike p e rid v db)) = None.
Proof.
  intros Htag Hb Hf. unfold toggleLike, runTransaction. rewrite Htag, Hb, Hf.
  now destruct (toggleLike_tx e _ _ db []).
Qed.

(** C6, as the specification states it, fails for the unlike: B's like
    record outlives A's deleted review, and when B then toggles, the record
    is deleted and a row holding nothing but [likeCount] appears under the
    deleted review's key. *)
Lemma toggleLike_missing_review_counterexample :
  reviews dbOrphanLike !! ("S", "T", "A") = None /\
  is_Some (likes dbOrphanLike !! ("S", "T", "A", "B")) /\
  likes (snd (toggleLike propsB (at_time 4) "A" (viewT emptyForm) dbOrphanLike))
    !! ("S", "T", "A", "B") = None /\
  reviews (snd (toggleLike propsB (at_time 4) "A" (viewT emptyForm) dbOrphanLike))
    !! ("S", "T", "A") = Some (withLikeCount (Math_max 0 (0 - 1)) None).
Proof.
  split; [reflexivity|]. split; [vm_compute; eexists; reflexivity|].
  split; reflexivity.
Qed.

(** C6, amended: deleting a review that is not stored changes no document
    and, the store committing, reports no error.  [toggleLike] has no such
    case: on a review that is not stored it reports no error either, but it
    does toggle the caller's like record. *)
Theorem missing_review_operations (p : Props) (e : Env) (rid : string) (v : View)
    (db : Db) (tag : string) :
  tag_of v = Some tag -> fault e = None ->
  (reviews db !! (cinemaId p, tag, uid (user p)) = None ->
   snd (deleteMyReview p e v db) = db /\
   error (fst (deleteMyReview p e v db)) = None) /\
  (reviews db !! (cinemaId p, tag, rid) = None ->
   flag (likeBusy v) rid = false ->
   error (fst (toggleLike p e rid v db)) = None /\
   (is_Some (likes (snd (toggleLike p e rid v db)) !! (cinemaId p, tag, rid, uid (user p)))
    <-> likes db !! (cinemaId p, tag, rid, uid (user p)) = None)).
Proof.
  intros Htag Hf. split.
  - intros Hr. split.
    + now apply (deleteMyReview_absent p e v db tag).
    + unfold deleteMyReview, runTransaction. rewrite Htag, Hf.
      now destruct (deleteMyReview_tx e _ _ db []).
  - intros _ Hb. split.
    + now apply (toggleLike_no_error p e rid v db tag).
    + destruct (likes db !! (cinemaId p, tag, rid, uid (user p))) as [l|] eqn:Hl.
      * rewrite (toggleLike_unlike p e v db tag rid l Htag Hb Hf Hl).
        cbn [likes]. rewrite lookup_delete_eq.
        split; [intros [x Hx]; discriminate | discriminate].
      * rewrite (toggleLike_like p e v db tag rid Htag Hb Hf Hl).
        cbn [likes]. rewrite lookup_insert_eq.
        split; [reflexivity | intros _; eexists; reflexivity].
Qed.

Lemma missing_review_operations_witness :
  snd (deleteMyReview propsA (at_time 1) (viewT emptyForm) empty_db) = empty_db /\
  error (fst (deleteMyReview propsA (at_time 1) (viewT emptyForm) empty_db)) = None /\
  error (fst (toggleLike propsA (at_time 1) "Z" (viewT emptyForm) empty_db)) = None.
Proof.
  destruct (missing_review_operations propsA (at_time 1) "Z" (viewT emptyForm)
              empty_db "T" eq_refl eq_refl) as [Hd Ht].
  destruct (Hd eq_refl) as [H1 H2].
  destruct (Ht eq_refl eq_refl) as [H3 _].
  split; [exact H1|]. split; [exact H2 | exact H3].
Defined.

(** ** Toggling twice *)

(** C8, as the specification states it, fails from a state in which the
    viewer already likes the review: after B liked A's review, two more
    toggles by B leave B's like record in place. *)
Lemma toggleTwice_counterexample :
  is_Some (likes dbLiked !! ("S", "T", "A", "B")) /\
  is_Some (likes (snd (toggleTwice propsB (at_time 3) (at_time 4) "A"
                         (viewT emptyForm) dbLiked))
             !! ("S", "T", "A", "B")).
Proof.
  split; vm_compute; eexists; reflexivity.
Qed.

(** C8, amended: from a state with no like record for (review, liker) and a
    like counter that is not negative, two toggles in sequence (both run and
    commit) bring the counter back to its original value and leave no like
    record.  [==] is equality of rationals. *)
Theorem toggleTwice_involution (p : Props) (e1 e2 : Env) (rid : string) (v : View)
    (db : Db) (tag : string) :
  tag_of v = Some tag -> flag (likeBusy v) rid = false ->
  fault e1 = None -> fault e2 = None ->
  likes db !! (cinemaId p, tag, rid, uid (user p)) = None ->
  0 <= likeCountOf db (cinemaId p, tag, rid) ->
  let db2 := snd (toggleTwice p e1 e2 rid v db) in
  likeCountOf db2 (cinemaId p, tag, rid) == likeCountOf db (cinemaId p, tag, rid) /\
  likes db2 !! (cinemaId p, tag, rid, uid (user p)) = None.
Proof.
  intros Htag Hb Hf1 Hf2 Hl Hn db2. subst db2. unfold toggleTwice.
  destruct (toggleLike_view p e1 rid v db tag Htag Hb) as [Htag1 Hb1].
  pose proof (toggleLike_like p e1 v db tag rid Htag Hb Hf1 Hl) as H1.
  destruct (toggleLike p e1 rid v db) as [v1 db1]. cbn [fst snd] in *.
  assert (Hl1 : likes db1 !! (cinemaId p, tag, rid, uid (user p))
                = Some {| Like.createdAt := Some (now e1) |}).
  { rewrite H1. cbn [likes]. apply lookup_insert_eq. }
  rewrite (toggleLike_unlike p e2 v1 db1 tag rid _ Htag1 Hb1 Hf2 Hl1).
  split.
  - rewrite likeCountOf_insert_eq. cbn [withLikeCount Review.likeCount nullish Number].
    rewrite H1 at 1. rewrite likeCountOf_insert_eq.
    cbn [withLikeCount Review.likeCount nullish Number].
    unfold Math_max. rewrite Q.max_r by lra. ring.
  - cbn [likes]. apply lookup_delete_eq.
Qed.

Lemma toggleTwice_involution_witness :
  likeCountOf (snd (toggleTwice propsB (at_time 2) (at_time 3) "A"
                      (viewT emptyForm) dbOneReview)) ("S", "T", "A")
    == likeCountOf dbOneReview ("S", "T", "A") /\
  likes (snd (toggleTwice propsB (at_time 2) (at_time 3) "A"
                (viewT emptyForm) dbOneReview)) !! ("S", "T", "A", "B") = None.
Proof.
  apply (toggleTwice_involution propsB (at_time 2) (at_time 3) "A" (viewT emptyForm)
           dbOneReview "T"); try reflexivity.
  vm_compute. discriminate.
Defined.

(** ** Counters never go below zero *)

Lemma nonNegative_empty : nonNegative empty_db.
Proof.
  split; intros ref x H; cbn in H; rewrite lookup_empty in H; discriminate.
Qed.

Lemma statsCount_nonneg (db : Db) (ref : StatsRef) :
  nonNegative db -> 0 <= statsCount db ref.
Proof.
  intros [_ Hs]. unfold statsCount.
  destruct (stats db !! ref) as [s|] eqn:E; [now apply (Hs ref) | apply Qle_refl].
Qed.

Lemma likeCountOf_nonneg (db : Db) (ref : ReviewRef) :
  nonNegative db -> 0 <= likeCountOf db ref.
Proof.
  intros [Hr _]. unfold likeCountOf.
  destruct (reviews db !! ref) as [r|] eqn:E; [now apply (Hr ref) | apply Qle_refl].
Qed.

(** A database whose rows and stats documents are either those of [db] or
    carry a counter that is not negative. *)
Lemma nonNegative_update (db : Db) (rv : gmap ReviewRef Review.t)
    (st : gmap StatsRef Stats.t) (lk : gmap LikeRef Like.t) :
  nonNegative db ->
  (forall ref r, rv !! ref = Some r ->
     reviews db !! ref = Some r \/ 0 <= Number (nullish (Review.likeCount r) 0)) ->
  (forall ref s, st !! ref = Some s ->
     stats db !! ref = Some s \/ 0 <= Number (nullish (Stats.count s) 0)) ->
  nonNegative (mkDb rv st lk).
Proof.
  intros [Hr Hs] Hrv Hst. split; cbn.
  - intros ref r H. destruct (Hrv ref r H) as [H'|H']; [now apply (Hr ref) | exact H'].
  - intros ref s H. destruct (Hst ref s H) as [H'|H']; [now apply (Hs ref) | exact H'].
Qed.

Ltac lookup_cases H :=
  first [ apply lookup_insert_Some in H as [[<- <-]|[_ H]]; [right; cbn | left; exact H]
        | apply lookup_delete_Some in H as [_ H]; left; exact H
        | left; exact H ].

Lemma saveMyReview_nonNegative (p : Props) (e : Env) (v : View) (db : Db) :
  nonNegative db -> nonNegative (snd (saveMyReview p e v db)).
Proof.
  intros Hdb.
  destruct (tag_of v) as [tag|] eqn:Htag;
    [|now rewrite saveMyReview_no_tag].
  destruct (fault e) as [err|] eqn:Hf;
    [now rewrite (saveMyReview_fault p e v db err)|].
  pose proof (statsCount_nonneg db (cinemaId p, tag) Hdb) as Hc.
  destruct (reviews db !! (cinemaId p, tag, uid (user p))) as [prev|] eqn:Hr.
  - rewrite (saveMyReview_update p e v db tag prev Htag Hf Hr). cbn zeta.
    apply (nonNegative_update db); [exact Hdb | |]; intros ref x H; lookup_cases H.
    + now apply (proj1 Hdb _ _ Hr).
    + exact Hc.
  - rewrite (saveMyReview_create p e v db tag Htag Hf Hr). cbn zeta.
    apply (nonNegative_update db); [exact Hdb | |]; intros ref x H; lookup_cases H.
    + apply Qle_refl.
    + lra.
Qed.

Lemma deleteMyReview_nonNegative (p : Props) (e : Env) (v : View) (db : Db) :
  nonNegative db -> nonNegative (snd (deleteMyReview p e v db)).
Proof.
  intros Hdb.
  destruct (tag_of v) as [tag|] eqn:Htag;
    [|now rewrite deleteMyReview_no_tag].
  destruct (fault e) as [err|] eqn:Hf;
    [now rewrite (deleteMyReview_fault p e v db err)|].
  destruct (reviews db !! (cinemaId p, tag, uid (user p))) as [prev|] eqn:Hr.
  - rewrite (deleteMyReview_present p e v db tag prev Htag Hf Hr). cbn zeta.
    apply (nonNegative_update db); [exact Hdb | |]; intros ref x H; lookup_cases H.
    apply Q.le_max_l.
  - now rewrite (deleteMyReview_absent p e v db tag).
Qed.

Lemma toggleLike_nonNegative (p : Props) (e : Env) (rid : string) (v : View) (db : Db) :
  nonNegative db -> nonNegative (snd (toggleLike p e rid v db)).
Proof.
  intros Hdb.
  destruct (tag_of v) as [tag|] eqn:Htag;
    [|now rewrite toggleLike_no_tag].
  destruct (flag (likeBusy v) rid) eqn:Hb;
    [now rewrite toggleLike_busy|].
  destruct (fault e) as [err|] eqn:Hf;
    [now rewrite (toggleLike_fault p e v db rid err)|].
  pose proof (likeCountOf_nonneg db (cinemaId p, tag, rid) Hdb) as Hc.
  destruct (likes db !! (cinemaId p, tag, rid, uid (user p))) as [l|] eqn:Hl.
  - rewrite (toggleLike_unlike p e v db tag rid l Htag Hb Hf Hl).
    apply (nonNegative_update db); [exact Hdb | |]; intros ref x H; lookup_cases H.
    apply Q.le_max_l.
  - rewrite (toggleLike_like p e v db tag rid Htag Hb Hf Hl).
    apply (nonNegative_update db); [exact Hdb | |]; intros ref x H; lookup_cases H.
    lra.
Qed.

Lemma step_nonNegative (db : Db) (o : Op) : nonNegative db -> nonNegative (step db o).
Proof.
  destruct o as [[p e v|p e v]|p e rid v]; cbn [step stepReview].
  - apply saveMyReview_nonNegative.
  - apply deleteMyReview_nonNegative.
  - apply toggleLike_nonNegative.
Qed.

(** C9: from a database whose like counters and stats counts are not
    negative (the empty one, for instance), every sequence of upserts,
    deletes and like toggles, by any users, on any keys and in any order,
    committed or failed, ends in a database with the same property.  Every
    prefix of a sequence being a sequence, this holds after each step. *)
Theorem counters_never_negative (ops : list Op) (db : Db) :
  nonNegative db -> nonNegative (run ops db).
Proof.
  revert db. induction ops as [|o ops IH]; intros db Hdb; cbn.
  - exact Hdb.
  - apply IH. now apply step_nonNegative.
Qed.

Lemma counters_never_negative_witness :
  nonNegative
    (run [ OnReview (Delete propsA (at_time 1) (viewT emptyForm));
           Toggle propsB (at_time 2) "A" (viewT emptyForm);
           Toggle propsB (at_time 3) "A" (viewT emptyForm);
           Toggle propsB (at_time 4) "A" (viewT emptyForm);
           OnReview (Upsert propsA (at_time 5) (viewT (scores 4 4 4 4)));
           OnReview (Delete propsA (at_time 6) (viewT emptyForm));
           OnReview (Delete propsA (at_time 7) (viewT emptyForm)) ]
       empty_db).
Proof.
  apply counters_never_negative. exact nonNegative_empty.
Defined.

(** ** The aggregate follows the live reviews *)

Section LiveReviews.
Variables (rv : gmap ReviewRef Review.t) (st st' : gmap StatsRef Stats.t)
          (lk lk' : gmap LikeRef Like.t).

Lemma liveReviews_lookup c t u :
  liveReviews (mkDb rv st lk) (c, t) !! (c, t, u) = rv !! (c, t, u).
Proof.
  unfold liveReviews. cbn [reviews].
  destruct (rv !! (c, t, u)) as [r|] eqn:E.
  - apply map_lookup_filter_Some_2; [exact E | reflexivity].
  - apply map_lookup_filter_None_2. now left.
Qed.

Lemma liveReviews_insert_same c t u r :
  liveReviews (mkDb (<[(c, t, u) := r]> rv) st' lk') (c, t)
  = <[(c, t, u) := r]> (liveReviews (mkDb rv st lk) (c, t)).
Proof. unfold liveReviews. cbn [reviews]. now rewrite map_filter_insert_True. Qed.

Lemma liveReviews_insert_other c t u r k :
  k <> (c, t) ->
  liveReviews (mkDb (<[(c, t, u) := r]> rv) st' lk') k = liveReviews (mkDb rv st lk) k.
Proof.
  intros Hk. unfold liveReviews. cbn [reviews].
  apply map_filter_insert_not. intros y. cbn. congruence.
Qed.

Lemma liveReviews_delete ref k :
  liveReviews (mkDb (delete ref rv) st' lk') k = delete ref (liveReviews (mkDb rv st lk) k).
Proof. unfold liveReviews. cbn [reviews]. apply map_filter_delete. Qed.

Lemma liveReviews_delete_other c t u k :
  k <> (c, t) ->
  liveReviews (mkDb (delete (c, t, u) rv) st' lk') k = liveReviews (mkDb rv st lk) k.
Proof.
  intros Hk. unfold liveReviews. cbn [reviews].
  apply map_filter_delete_not. intros y _. cbn. congruence.
Qed.

(** Writing the stats document of another key leaves the agreement at [k]
    alone, provided the live reviews under [k] are the same. *)
Lemma statsAgree_other_key (rv' : gmap ReviewRef Review.t) ref s k :
  ref <> k ->
  liveReviews (mkDb rv' (<[ref := s]> st) lk') k = liveReviews (mkDb rv st lk) k ->
  statsAgree (mkDb rv st lk) k ->
  statsAgree (mkDb rv' (<[ref := s]> st) lk') k.
Proof.
  intros Hk Hlive H. unfold statsAgree, liveCount, liveSum in *.
  rewrite Hlive.
  rewrite !(statsCount_insert_ne rv' st lk' ref k s Hk),
          !(statsSum_insert_ne rv' st lk' ref k s Hk),
          !(statsAvg_insert_ne rv' st lk' ref k s Hk).
  exact H.
Qed.
End LiveReviews.

Lemma inject_Z_of_nat_S (n : nat) :
  inject_Z (Z.of_nat (S n)) == inject_Z (Z.of_nat n) + 1.
Proof. rewrite Nat2Z.inj_succ. unfold Z.succ. now rewrite inject_Z_plus. Qed.

Lemma readOverall_stored (r : Review.t) :
  is_Some (Review.overall r) -> readOverall r = storedOverall r.
Proof. intros [o Ho]. unfold readOverall, storedOverall. now rewrite Ho. Qed.

Lemma sumOverallOf_empty : sumOverallOf ∅ = 0.
Proof. apply map_fold_empty. Qed.

Lemma sumOverallOf_insert_new (m : gmap ReviewRef Review.t) ref r :
  m !! ref = None -> sumOverallOf (<[ref := r]> m) == sumOverallOf m + storedOverall r.
Proof.
  intros H. unfold sumOverallOf.
  apply (map_fold_insert Qeq (fun _ r acc => acc + storedOverall r)).
  - intros j z a b Hab. now rewrite Hab.
  - intros. ring.
  - exact H.
Qed.

Lemma sumOverallOf_delete (m : gmap ReviewRef Review.t) ref r :
  m !! ref = Some r -> sumOverallOf m == sumOverallOf (delete ref m) + storedOverall r.
Proof.
  intros H. unfold sumOverallOf.
  apply (map_fold_delete Qeq (fun _ r acc => acc + storedOverall r)).
  - intros j z a b Hab. now rewrite Hab.
  - intros. ring.
  - exact H.
Qed.

Lemma sumOverallOf_insert_old (m : gmap ReviewRef Review.t) ref prev r :
  m !! ref = Some prev ->
  sumOverallOf (<[ref := r]> m) == sumOverallOf m + (storedOverall r - storedOverall prev).
Proof.
  intros H. rewrite <- insert_delete_eq.
  rewrite (sumOverallOf_delete m ref prev H).
  rewrite (sumOverallOf_insert_new (delete ref m)) by apply lookup_delete_eq. ring.
Qed.


Lemma statsConsistent_empty : statsConsistent empty_db.
Proof.
  split.
  - intros ref r H. cbn in H. rewrite lookup_empty in H. discriminate.
  - intros k. unfold statsAgree, statsCount, statsSum, statsAvg, liveCount, liveSum,
      liveReviews. cbn [empty_db stats reviews].
    rewrite lookup_empty, map_filter_empty, map_size_empty, sumOverallOf_empty.
    repeat split; reflexivity.
Qed.

Lemma saveMyReview_statsConsistent (p : Props) (e : Env) (v : View) (db : Db) :
  statsConsistent db -> statsConsistent (snd (saveMyReview p e v db)).
Proof.
  intros [Hov Hagree].
  destruct (tag_of v) as [tag|] eqn:Htag;
    [|now rewrite saveMyReview_no_tag].
  destruct (fault e) as [err|] eqn:Hf;
    [now rewrite (saveMyReview_fault p e v db err)|].
  destruct (reviews db !! (cinemaId p, tag, uid (user p))) as [prev|] eqn:Hr.
  - rewrite (saveMyReview_update p e v db tag prev Htag Hf Hr). cbn zeta.
    rewrite (readOverall_stored prev (Hov _ _ Hr)).
    destruct db as [rv st lk]. cbn [reviews stats likes] in *. split.
    + intros ref r H. cbn [reviews] in H.
      apply lookup_insert_Some in H as [[<- <-]|[_ H]];
        [eexists; reflexivity | exact (Hov ref r H)].
    + intros k. destruct (decide ((cinemaId p, tag) = k)) as [<-|Hk].
      * destruct (Hagree (cinemaId p, tag)) as (Hc & Hs & _).
        unfold statsAgree, liveCount, liveSum in *.
        rewrite !statsCount_insert_eq, !statsSum_insert_eq, statsAvg_insert_eq.
        cbn [Stats.count Stats.sumOverall Stats.avgOverall nullish Number].
        rewrite (liveReviews_insert_same rv st _ lk _).
        split; [|split; [|reflexivity]].
        -- rewrite map_size_insert_Some; [exact Hc|].
           rewrite liveReviews_lookup. now exists prev.
        -- rewrite (sumOverallOf_insert_old _ _ prev)
             by (now rewrite liveReviews_lookup).
           rewrite Hs. reflexivity.
      * apply (statsAgree_other_key rv st lk lk); [exact Hk | | exact (Hagree k)].
        apply liveReviews_insert_other. congruence.
  - rewrite (saveMyReview_create p e v db tag Htag Hf Hr). cbn zeta.
    destruct db as [rv st lk]. cbn [reviews stats likes] in *. split.
    + intros ref r H. cbn [reviews] in H.
      apply lookup_insert_Some in H as [[<- <-]|[_ H]];
        [eexists; reflexivity | exact (Hov ref r H)].
    + intros k. destruct (decide ((cinemaId p, tag) = k)) as [<-|Hk].
      * destruct (Hagree (cinemaId p, tag)) as (Hc & Hs & _).
        unfold statsAgree, liveCount, liveSum in *.
        rewrite !statsCount_insert_eq, !statsSum_insert_eq, statsAvg_insert_eq.
        cbn [Stats.count Stats.sumOverall Stats.avgOverall nullish Number].
        rewrite (liveReviews_insert_same rv st _ lk _).
        split; [|split; [|reflexivity]].
        -- rewrite map_size_insert_None by (now rewrite liveReviews_lookup).
           rewrite inject_Z_of_nat_S, Hc. reflexivity.
        -- rewrite sumOverallOf_insert_new by (now rewrite liveReviews_lookup).
           rewrite Hs. reflexivity.
      * apply (statsAgree_other_key rv st lk lk); [exact Hk | | exact (Hagree k)].
        apply liveReviews_insert_other. congruence.
Qed.

Lemma deleteMyReview_statsConsistent (p : Props) (e : Env) (v : View) (db : Db) :
  statsConsistent db -> statsConsistent (snd (deleteMyReview p e v db)).
Proof.
  intros [Hov Hagree].
  destruct (tag_of v) as [tag|] eqn:Htag;
    [|now rewrite deleteMyReview_no_tag].
  destruct (fault e) as [err|] eqn:Hf;
    [now rewrite (deleteMyReview_fault p e v db err)|].
  destruct (reviews db !! (cinemaId p, tag, uid (user p))) as [prev|] eqn:Hr;
    [|now rewrite (deleteMyReview_absent p e v db tag)].
  rewrite (deleteMyReview_present p e v db tag prev Htag Hf Hr). cbn zeta.
  rewrite (readOverall_stored prev (Hov _ _ Hr)).
  destruct db as [rv st lk]. cbn [reviews stats likes] in *. split.
  - intros ref r H. cbn [reviews] in H.
    apply lookup_delete_Some in H as [_ H]. exact (Hov ref r H).
  - intros k. destruct (decide ((cinemaId p, tag) = k)) as [<-|Hk].
    + destruct (Hagree (cinemaId p, tag)) as (Hc & Hs & _).
      unfold statsAgree, liveCount, liveSum in *.
      rewrite !statsCount_insert_eq, !statsSum_insert_eq, statsAvg_insert_eq.
      cbn [Stats.count Stats.sumOverall Stats.avgOverall nullish Number].
      rewrite (liveReviews_delete rv st _ lk _).
      assert (Hlive : liveReviews (mkDb rv st lk) (cinemaId p, tag)
                        !! (cinemaId p, tag, uid (user p)) = Some prev)
        by (now rewrite liveReviews_lookup).
      pose proof (map_size_delete_Some (cinemaId p, tag, uid (user p)) _
                    (ex_intro _ prev Hlive)) as Hsize.
      pose proof (sumOverallOf_delete _ _ prev Hlive) as Hsum.
      set (live := liveReviews (mkDb rv st lk) (cinemaId p, tag)) in *.
      assert (Hpos : size live = S (size (delete (cinemaId p, tag, uid (user p)) live))).
      { rewrite Hsize. destruct (size live) eqn:E; [|reflexivity].
        apply map_size_empty_inv in E. rewrite E, lookup_empty in Hlive. discriminate. }
      rewrite Hpos, inject_Z_of_nat_S in Hc.
      set (n := size (delete (cinemaId p, tag, uid (user p)) live)) in *.
      assert (Hn : 0 <= inject_Z (Z.of_nat n)).
      { change 0 with (inject_Z 0). rewrite <- Zle_Qle. apply Nat2Z.is_nonneg. }
      assert (Hcount : Math_max 0 (statsCount (mkDb rv st lk) (cinemaId p, tag) - 1)
                       == inject_Z (Z.of_nat n)).
      { unfold Math_max. rewrite Q.max_r; rewrite Hc; [ring | lra]. }
      split; [exact Hcount | split; [|reflexivity]].
      unfold strict_eq.
      destruct (Qeq_bool _ 0) eqn:Hz.
      * apply Qeq_bool_iff in Hz. rewrite Hcount in Hz.
        assert (n = 0%nat) as Hn0.
        { unfold Qeq, inject_Z in Hz. cbn in Hz. lia. }
        subst n. apply map_size_empty_inv in Hn0. rewrite Hn0, sumOverallOf_empty.
        reflexivity.
      * rewrite Hs, Hsum. ring.
    + apply (statsAgree_other_key rv st lk lk); [exact Hk | | exact (Hagree k)].
      apply liveReviews_delete_other. congruence.
Qed.

Lemma stepReview_statsConsistent (db : Db) (o : ReviewOp) :
  statsConsistent db -> statsConsistent (stepReview db o).
Proof.
  destruct o as [p e v|p e v]; cbn [stepReview].
  - apply saveMyReview_statsConsistent.
  - apply deleteMyReview_statsConsistent.
Qed.

Lemma runReviews_statsConsistent (ops : list ReviewOp) (db : Db) :
  statsConsistent db -> statsConsistent (runReviews ops db).
Proof.
  revert db. induction ops as [|o ops IH]; intros db H; cbn.
  - exact H.
  - apply IH. now apply stepReview_statsConsistent.
Qed.

Lemma aggregate_follows_reviews_all (ops : list ReviewOp) (k : StatsRef) :
  statsAgree (runReviews ops empty_db) k.
Proof.
  exact (proj2 (runReviews_statsConsistent ops empty_db statsConsistent_empty) k).
Qed.

(** C1: start from the empty database and run any finite sequence of review
    upserts and deletes (any users, any keys, committed or failed).  After
    each operation, that is after every prefix [take n ops], and for every
    (cinema, tag) key [k]: the stats count is the number of live reviews
    under [k], the stats sum is the sum of their stored [overall] values
    (equal as rationals, hence within 1e-9), and the stats average is
    [sumOverall / count], or [0] when the count is [0].  Every live review
    carries its [overall] field. *)
Theorem aggregate_follows_reviews (ops : list ReviewOp) (n : nat) (k : StatsRef) :
  let db := runReviews (take n ops) empty_db in
  statsCount db k == inject_Z (Z.of_nat (liveCount db k)) /\
  statsSum db k == liveSum db k /\
  Qabs (statsSum db k - liveSum db k) <= 1 # 1000000000 /\
  statsAvg db k ==
    (if strict_eq (statsCount db k) 0 then 0 else statsSum db k / statsCount db k) /\
  (forall ref r, liveReviews db k !! ref = Some r -> is_Some (Review.overall r)).
Proof.
  intros db.
  destruct (runReviews_statsConsistent (take n ops) empty_db statsConsistent_empty)
    as [Hov Hagree].
  destruct (Hagree k) as (Hc & Hs & Ha). fold db in Hc, Hs, Ha, Hov.
  split; [exact Hc|]. split; [exact Hs|]. split; [|split; [exact Ha|]].
  - assert (H0 : statsSum db k - liveSum db k == 0) by (rewrite Hs; ring).
    rewrite H0. discriminate.
  - intros ref r H. apply map_lookup_filter_Some_1_1 in H. exact (Hov ref r H).
Qed.

Lemma aggregate_follows_reviews_witness :
  let db :=
    runReviews
      (take 3 [ Upsert propsA (at_time 1) (viewT (scores 5 5 5 5));
                Upsert propsB (at_time 2) (viewT (scores 0 0 0 0));
                Delete propsA (at_time 3) (viewT emptyForm);
                Delete propsA (at_time 4) (viewT emptyForm) ])
      empty_db in
  statsCount db ("S", "T") == inject_Z (Z.of_nat (liveCount db ("S", "T"))) /\
  statsSum db ("S", "T") == liveSum db ("S", "T").
Proof.
  intros db.
  destruct (aggregate_follows_reviews
              [ Upsert propsA (at_time 1) (viewT (scores 5 5 5 5));
                Upsert propsB (at_time 2) (viewT (scores 0 0 0 0));
                Delete propsA (at_time 3) (viewT emptyForm);
                Delete propsA (at_time 4) (viewT emptyForm) ] 3 ("S", "T"))
    as (Hc & Hs & _).
  split; [exact Hc | exact Hs].
Defined.

(** ** Exactness on slider inputs *)

Lemma validScore_halves (x : Q) :
  validScore x = true ->
  exists z : Z, x == inject_Z z / 2 /\ (0 <= z <= 10)%Z.
Proof.
  unfold validScore, onHalfStep. intros H.
  apply andb_true_iff in H as [H Hstep]. apply andb_true_iff in H as [H0 H5].
  apply Qle_bool_iff in H0, H5. apply Z.eqb_eq in Hstep.
  apply Z.mod_divide in Hstep; [|discriminate]. destruct Hstep as [z Hz].
  assert (Hx : x == inject_Z z / 2).
  { destruct x as [a b]. cbn [Qnum Qden] in Hz.
    unfold Qeq, Qdiv, Qmult, Qinv, inject_Z. cbn. lia. }
  exists z. split; [exact Hx|].
  rewrite Hx in H0, H5.
  assert (Hq : 0 <= inject_Z z /\ inject_Z z <= 10).
  { clear Hx Hz. revert H0 H5. generalize (inject_Z z). intros q H0 H5.
    assert (E : q == (q / 2) * 2) by field.
    revert H0 H5 E. generalize (q / 2). intros h H0 H5 E. split; lra. }
  split; rewrite Zle_Qle; [exact (proj1 Hq) | exact (proj2 Hq)].
Qed.

Lemma formOverall_on_grid (f : ReviewForm.t) :
  validForm f = true -> eighthsUpTo 1 (formOverall f).
Proof.
  unfold validForm. intros H.
  apply andb_true_iff in H as [H Hd]. apply andb_true_iff in H as [H Hc].
  apply andb_true_iff in H as [Ha Hb].
  apply validScore_halves in Ha as (za & Ea & Ra), Hb as (zb & Eb & Rb),
    Hc as (zc & Ec & Rc), Hd as (zd & Ed & Rd).
  exists (za + zb + zc + zd)%Z. split; [|lia].
  unfold formOverall, overallScore. rewrite Ea, Eb, Ec, Ed, !inject_Z_plus. field.
Qed.

(** The sum over rows on the grid is on the grid, up to the number of rows. *)
Lemma sumOverallOf_on_grid (m : gmap ReviewRef Review.t) :
  (forall ref r, m !! ref = Some r -> eighthsUpTo 1 (storedOverall r)) ->
  eighthsUpTo (size m) (sumOverallOf m).
Proof.
  induction m as [|ref r m Hnew IH] using map_ind; intros Hrows.
  - exists 0%Z. rewrite sumOverallOf_empty, map_size_empty. split; [reflexivity | lia].
  - destruct IH as (z & Ez & Rz).
    { intros ref' r' H'. apply (Hrows ref'). rewrite lookup_insert_ne; [exact H'|].
      intros ->. rewrite Hnew in H'. discriminate. }
    destruct (Hrows ref r (lookup_insert_eq _ _ _)) as (y & Ey & Ry).
    exists (z + y)%Z. split.
    + rewrite (sumOverallOf_insert_new m ref r Hnew), Ez, Ey, inject_Z_plus. field.
    + rewrite map_size_insert_None by exact Hnew. lia.
Qed.

Lemma stepReview_overallOnGrid (db : Db) (o : ReviewOp) :
  fromSliders o -> overallOnGrid db -> overallOnGrid (stepReview db o).
Proof.
  destruct o as [p e v|p e v]; cbn [stepReview fromSliders]; intros Hvalid Hdb.
  - destruct (tag_of v) as [tag|] eqn:Htag;
      [|now rewrite saveMyReview_no_tag].
    destruct (fault e) as [err|] eqn:Hf;
      [now rewrite (saveMyReview_fault p e v db err)|].
    destruct (stored_row_of_saveMyReview p e v db tag Htag Hf)
      as (r' & Hr' & _ & _ & _ & _ & Ho).
    assert (Hrest : forall ref r, ref <> (cinemaId p, tag, uid (user p)) ->
              reviews (snd (saveMyReview p e v db)) !! ref = Some r ->
              reviews db !! ref = Some r).
    { intros ref r Hne H.
      destruct (reviews db !! (cinemaId p, tag, uid (user p))) as [prev|] eqn:Hr.
      - rewrite (saveMyReview_update p e v db tag prev Htag Hf Hr) in H.
        cbn zeta in H. cbn [reviews] in H. now rewrite lookup_insert_ne in H.
      - rewrite (saveMyReview_create p e v db tag Htag Hf Hr) in H.
        cbn zeta in H. cbn [reviews] in H. now rewrite lookup_insert_ne in H. }
    intros ref r H.
    destruct (decide (ref = (cinemaId p, tag, uid (user p)))) as [->|Hne].
    + rewrite Hr' in H. injection H as <-. split; [now rewrite Ho|].
      unfold storedOverall. rewrite Ho. now apply formOverall_on_grid.
    + exact (Hdb ref r (Hrest ref r Hne H)).
  - destruct (tag_of v) as [tag|] eqn:Htag;
      [|now rewrite deleteMyReview_no_tag].
    destruct (fault e) as [err|] eqn:Hf;
      [now rewrite (deleteMyReview_fault p e v db err)|].
    destruct (reviews db !! (cinemaId p, tag, uid (user p))) as [prev|] eqn:Hr;
      [|now rewrite (deleteMyReview_absent p e v db tag)].
    rewrite (deleteMyReview_present p e v db tag prev Htag Hf Hr). cbn zeta.
    intros ref r H. cbn [reviews] in H.
    apply lookup_delete_Some in H as [_ H]. exact (Hdb ref r H).
Qed.

(** On forms the sliders can produce, the stats sum of every key is, after
    every operation, [z / 8] for an integer [z] between [0] and [40] times
    the number of live reviews: the sums the transactions compute stay on a
    grid where double arithmetic is exact, so the rational model loses
    nothing there. *)
Theorem aggregate_on_grid (ops : list ReviewOp) (k : StatsRef) :
  Forall fromSliders ops ->
  let db := runReviews ops empty_db in
  eighthsUpTo (liveCount db k) (statsSum db k).
Proof.
  intros Hops db.
  assert (Hgrid : overallOnGrid db).
  { subst db. unfold runReviews.
    assert (H0 : overallOnGrid empty_db).
    { intros ref r H. cbn in H. rewrite lookup_empty in H. discriminate. }
    revert H0. generalize empty_db.
    induction Hops as [|o ops Ho _ IH]; intros d Hd; cbn; [exact Hd|].
    apply IH. now apply stepReview_overallOnGrid. }
  destruct (aggregate_follows_reviews_all ops k) as (_ & Hs & _). fold db in Hs.
  destruct (sumOverallOf_on_grid (liveReviews db k)) as (z & Ez & Rz).
  { intros ref r H. apply map_lookup_filter_Some_1_1 in H.
    exact (proj2 (Hgrid ref r H)). }
  exists z. split; [|exact Rz]. now rewrite Hs.
Qed.

Lemma aggregate_on_grid_witness :
  eighthsUpTo
    (liveCount (runReviews [ Upsert propsA (at_time 1) (viewT (scores 5 (9 # 2) 0 5));
                             Delete propsB (at_time 2) (viewT emptyForm) ] empty_db)
               ("S", "T"))
    (statsSum (runReviews [ Upsert propsA (at_time 1) (viewT (scores 5 (9 # 2) 0 5));
                            Delete propsB (at_time 2) (viewT emptyForm) ] empty_db)
              ("S", "T")).
Proof.
  apply aggregate_on_grid.
  repeat constructor.
Defined.

(** Scenario A of the specification, run on the model. *)
Example scenario_A :
  let s1 := stepReview empty_db (Upsert propsA (at_time 1) (viewT (scores 5 5 5 5))) in
  let s2 := stepReview s1 (Upsert propsB (at_time 2) (viewT (scores 0 0 0 0))) in
  let s3 := stepReview s2 (Upsert propsA (at_time 3) (viewT (scores 4 4 4 4))) in
  let s4 := stepReview s3 (Delete propsB (at_time 4) (viewT emptyForm)) in
  let k := ("S", "T") in
  (statsCount s1 k == 1 /\ statsSum s1 k == 5 /\ statsAvg s1 k == 5) /\
  (statsCount s2 k == 2 /\ statsSum s2 k == 5 /\ statsAvg s2 k == 5 # 2) /\
  (statsCount s3 k == 2 /\ statsSum s3 k == 4 /\ statsAvg s3 k == 2) /\
  (statsCount s4 k == 1 /\ statsSum s4 k == 4 /\ statsAvg s4 k == 4).
Proof. vm_compute. repeat split. Qed.

(** Scenario B of the specification, run on the model. *)
Example scenario_B :
  let l1 := step dbOneReview (Toggle propsB (at_time 2) "A" (viewT emptyForm)) in
  let l2 := step l1 (Toggle propsB (at_time 3) "A" (viewT emptyForm)) in
  likeCountOf dbOneReview ("S", "T", "A") == 0 /\
  likeCountOf l1 ("S", "T", "A") == 1 /\
  is_Some (likes l1 !! ("S", "T", "A", "B")) /\
  likeCountOf l2 ("S", "T", "A") == 0 /\
  likes l2 !! ("S", "T", "A", "B") = None.
Proof.
  repeat split; try (vm_compute; reflexivity). vm_compute. eexists; reflexivity.
Qed.

(** ** Pagination *)

Lemma Math_ceil_div (PAGE_SIZE : Z) (len : nat) :
  (0 < PAGE_SIZE)%Z ->
  Math_ceil (inject_Z (Z.of_nat len) / inject_Z PAGE_SIZE)
  = ((Z.of_nat len + PAGE_SIZE - 1) / PAGE_SIZE)%Z.
Proof.
  intros Hp. unfold Math_ceil, Qceiling.
  assert (E : - (inject_Z (Z.of_nat len) / inject_Z PAGE_SIZE)
              == inject_Z (- Z.of_nat len) / inject_Z PAGE_SIZE).
  { rewrite inject_Z_opp. field. intros H. unfold Qeq, inject_Z in H. cbn in H. lia. }
  rewrite E, <- Zdiv_Qdiv.
  generalize (Z.of_nat len). intros n.
  Z.div_mod_to_equations. nia.
Qed.

Lemma totalPages_spec (PAGE_SIZE : Z) (len : nat) :
  (0 < PAGE_SIZE)%Z ->
  (1 <= totalPages PAGE_SIZE len)%Z /\
  (Z.of_nat len <= totalPages PAGE_SIZE len * PAGE_SIZE)%Z /\
  ((totalPages PAGE_SIZE len - 1) * PAGE_SIZE < Z.max 1 (Z.of_nat len))%Z.
Proof.
  intros Hp. unfold totalPages. rewrite (Math_ceil_div _ _ Hp).
  generalize (Nat2Z.is_nonneg len).
  generalize (Z.of_nat len). intros n Hn.
  split; [lia|]. split.
  - Z.div_mod_to_equations. nia.
  - Z.div_mod_to_equations. nia.
Qed.

(** A page in range is a [take] after a [drop]. *)
Lemma paged_take_drop {A : Type} (PAGE_SIZE page : Z) (l : list A) :
  (0 < PAGE_SIZE)%Z -> (1 <= page)%Z ->
  paged PAGE_SIZE page l
  = take (Z.to_nat PAGE_SIZE) (drop (Z.to_nat ((page - 1) * PAGE_SIZE)) l).
Proof.
  intros Hp Hpage. unfold paged, Array_slice.
  set (start := ((page - 1) * PAGE_SIZE)%Z).
  assert (Hs : (0 <= start)%Z) by (unfold start; nia).
  destruct (start <? 0)%Z eqn:E1; [apply Z.ltb_lt in E1; lia|].
  destruct (start + PAGE_SIZE <? 0)%Z eqn:E2; [apply Z.ltb_lt in E2; lia|].
  destruct (decide (Z.of_nat (length l) <= start)%Z) as [Hge|Hlt].
  - rewrite Z.min_r by lia. rewrite !drop_ge by lia. now rewrite !take_nil.
  - rewrite (Z.min_l start) by lia.
    destruct (decide (start + PAGE_SIZE <= Z.of_nat (length l))%Z) as [Hfull|Hpart].
    + rewrite Z.min_l by lia. f_equal. lia.
    + rewrite Z.min_r by lia. rewrite !take_ge; [reflexivity | |];
        rewrite length_drop; lia.
Qed.

Lemma concat_pages {A : Type} (ps : nat) (l : list A) (n : nat) :
  concat (map (fun i => take ps (drop (i * ps) l)) (seq 0 n)) = take (n * ps) l.
Proof.
  induction n as [|n IH].
  - now rewrite take_0.
  - rewrite seq_S, map_app, concat_app, IH. cbn [map concat Nat.add].
    rewrite app_nil_r, take_take_drop. f_equal. lia.
Qed.

(** X1: the pages [1 .. totalPages] of a list, one after the other, are the
    list: paging loses no item, repeats none and keeps the order. *)
Theorem pages_cover_list {A : Type} (PAGE_SIZE : Z) (l : list A) :
  (0 < PAGE_SIZE)%Z ->
  concat (map (fun page => paged PAGE_SIZE page l)
              (pageNumbers (totalPages PAGE_SIZE (length l)))) = l.
Proof.
  intros Hp. unfold pageNumbers. rewrite map_map.
  destruct (totalPages_spec PAGE_SIZE (length l) Hp) as (H1 & Hcover & _).
  rewrite (map_ext _ (fun i => take (Z.to_nat PAGE_SIZE)
                                 (drop (i * Z.to_nat PAGE_SIZE) l))).
  - rewrite concat_pages. apply take_ge. nia.
  - intros i. rewrite paged_take_drop by lia. do 2 f_equal. nia.
Qed.

Lemma pages_cover_list_witness :
  concat (map (fun page => paged PAGE_SIZE_CinemaDetail page
                             ["a"; "b"; "c"; "d"; "e"; "f"; "g"; "h"; "i"])
              (pageNumbers (totalPages PAGE_SIZE_CinemaDetail 9)))
  = ["a"; "b"; "c"; "d"; "e"; "f"; "g"; "h"; "i"].
Proof.
  apply (pages_cover_list PAGE_SIZE_CinemaDetail
           ["a"; "b"; "c"; "d"; "e"; "f"; "g"; "h"; "i"]).
  reflexivity.
Defined.

Lemma paged_in_range_nonempty {A : Type} (PAGE_SIZE page : Z) (l : list A) :
  (0 < PAGE_SIZE)%Z -> (1 <= page <= totalPages PAGE_SIZE (length l))%Z ->
  l <> [] -> paged PAGE_SIZE page l <> [].
Proof.
  intros Hp [Hpage Hle] Hne Hnil.
  destruct (totalPages_spec PAGE_SIZE (length l) Hp) as (_ & _ & Hlast).
  rewrite paged_take_drop in Hnil by assumption.
  assert (Hlen : length l <> 0%nat) by (now destruct l).
  assert ((page - 1) * PAGE_SIZE
          <= (totalPages PAGE_SIZE (length l) - 1) * PAGE_SIZE)%Z by nia.
  assert (0 <= (page - 1) * PAGE_SIZE)%Z by nia.
  apply (f_equal length) in Hnil. rewrite length_take, length_drop in Hnil.
  cbn in Hnil. lia.
Qed.

(** X2: a page numbered from 1 holds at most [PAGE_SIZE] items; every page
    before the last holds exactly [PAGE_SIZE]; the last page of a list that
    is not empty is not empty; a page after the last is empty. *)
Theorem page_sizes {A : Type} (PAGE_SIZE page : Z) (l : list A) :
  (0 < PAGE_SIZE)%Z -> (1 <= page)%Z ->
  let total := totalPages PAGE_SIZE (length l) in
  (Z.of_nat (length (paged PAGE_SIZE page l)) <= PAGE_SIZE)%Z /\
  ((page < total)%Z -> Z.of_nat (length (paged PAGE_SIZE page l)) = PAGE_SIZE) /\
  ((page <= total)%Z -> l <> [] -> paged PAGE_SIZE page l <> []) /\
  ((total < page)%Z -> paged PAGE_SIZE page l = []).
Proof.
  intros Hp Hpage total.
  destruct (totalPages_spec PAGE_SIZE (length l) Hp) as (H1 & Hcover & Hlast).
  fold total in H1, Hcover, Hlast.
  rewrite paged_take_drop by assumption.
  rewrite length_take, length_drop.
  split; [lia|]. split; [|split].
  - intros H.
    assert ((page - 1) * PAGE_SIZE + PAGE_SIZE <= (total - 1) * PAGE_SIZE)%Z by nia.
    assert (0 <= (page - 1) * PAGE_SIZE)%Z by nia.
    lia.
  - intros Hle Hne Hnil.
    assert (Hlen : length l <> 0%nat) by (now destruct l).
    assert ((page - 1) * PAGE_SIZE <= (total - 1) * PAGE_SIZE)%Z by nia.
    assert (0 <= (page - 1) * PAGE_SIZE)%Z by nia.
    apply (f_equal length) in Hnil. rewrite length_take, length_drop in Hnil.
    cbn in Hnil. lia.
  - intros Hgt.
    assert (total * PAGE_SIZE <= (page - 1) * PAGE_SIZE)%Z by nia.
    rewrite drop_ge by lia. apply take_nil.
Qed.

Lemma page_sizes_witness :
  (Z.of_nat (length (paged PAGE_SIZE_AllCinemas 2 ["a"; "b"; "c"; "d"])) <= 3)%Z /\
  paged PAGE_SIZE_AllCinemas 2 ["a"; "b"; "c"; "d"] <> [] /\
  paged PAGE_SIZE_AllCinemas 3 ["a"; "b"; "c"; "d"] = [].
Proof.
  destruct (page_sizes PAGE_SIZE_AllCinemas 2 ["a"; "b"; "c"; "d"] eq_refl)
    as (H1 & _ & H3 & _); [discriminate|].
  destruct (page_sizes PAGE_SIZE_AllCinemas 3 ["a"; "b"; "c"; "d"] eq_refl)
    as (_ & _ & _ & H4); [discriminate|].
  split; [exact H1|]. split; [apply H3; discriminate | apply H4; reflexivity].
Defined.

Lemma pageStep_in_range (PAGE_SIZE : Z) (st : Z * nat) (ev : PageEvent) :
  (0 < PAGE_SIZE)%Z -> (1 <= fst st)%Z ->
  (1 <= fst (pageStep PAGE_SIZE st ev)
     <= totalPages PAGE_SIZE (snd (pageStep PAGE_SIZE st ev)))%Z.
Proof.
  intros Hp Hst. destruct st as [page len]. cbn [fst] in Hst.
  pose proof (proj1 (totalPages_spec PAGE_SIZE len Hp)) as Hlen.
  destruct ev as [| | |n]; cbn [pageStep fst snd]; unfold clampPage.
  - destruct (_ >? _)%Z eqn:E; [apply Z.gtb_lt in E | rewrite Z.gtb_ltb in E;
      apply Z.ltb_ge in E]; lia.
  - destruct (_ >? _)%Z eqn:E; [apply Z.gtb_lt in E | rewrite Z.gtb_ltb in E;
      apply Z.ltb_ge in E]; lia.
  - destruct (_ >? _)%Z eqn:E; [apply Z.gtb_lt in E | rewrite Z.gtb_ltb in E;
      apply Z.ltb_ge in E]; lia.
  - pose proof (proj1 (totalPages_spec PAGE_SIZE n Hp)) as Hn.
    destruct (_ >? _)%Z eqn:E; [apply Z.gtb_lt in E | rewrite Z.gtb_ltb in E;
      apply Z.ltb_ge in E]; lia.
Qed.

(** X3: starting on page 1, whatever the user clicks and however the list
    grows or shrinks, the page number stays between 1 and [totalPages], so
    the page shown is never empty while the list has items. *)
Theorem page_always_valid {A : Type} (PAGE_SIZE : Z) (evs : list PageEvent)
    (len0 : nat) (l : list A) :
  (0 < PAGE_SIZE)%Z ->
  let st := fold_left (pageStep PAGE_SIZE) evs (1%Z, len0) in
  (1 <= fst st <= totalPages PAGE_SIZE (snd st))%Z /\
  (length l = snd st -> l <> [] -> paged PAGE_SIZE (fst st) l <> []).
Proof.
  intros Hp st.
  assert (Hrange : (1 <= fst st <= totalPages PAGE_SIZE (snd st))%Z).
  { subst st.
    assert (H0 : (1 <= fst (1%Z, len0) <= totalPages PAGE_SIZE (snd (1%Z, len0)))%Z).
    { cbn [fst snd]. pose proof (proj1 (totalPages_spec PAGE_SIZE len0 Hp)). lia. }
    revert H0. generalize (1%Z, len0).
    induction evs as [|ev evs IH]; intros s Hs; cbn [fold_left]; [exact Hs|].
    apply IH. apply pageStep_in_range; [exact Hp | lia]. }
  split; [exact Hrange|].
  intros Hlen Hne.
  apply (paged_in_range_nonempty PAGE_SIZE (fst st) l Hp); [|exact Hne].
  rewrite Hlen. exact Hrange.
Qed.

Lemma page_always_valid_witness :
  let st := fold_left (pageStep NEARBY_PAGE_SIZE)
              [ClickNext; ClickNext; LengthChanged 9; ClickPrev; ClickPrev] (1%Z, 20%nat) in
  (1 <= fst st <= totalPages NEARBY_PAGE_SIZE (snd st))%Z.
Proof.
  exact (proj1 (page_always_valid NEARBY_PAGE_SIZE
                  [ClickNext; ClickNext; LengthChanged 9; ClickPrev; ClickPrev]
                  20 (@nil string) eq_refl)).
Defined.

(** ** What the handlers leave alone *)

(** X4: a review upsert or delete writes nothing but the caller's own row
    and the stats document of the caller's (cinema, tag): every other row,
    every other stats document and every like record, those of the deleted
    review included, stay as they were. *)
Theorem review_ops_frame (o : ReviewOp) (db : Db) :
  let '(p, v) := match o with Upsert p _ v | Delete p _ v => (p, v) end in
  likes (stepReview db o) = likes db /\
  (forall c t u,
     tag_of v <> Some t \/ c <> cinemaId p \/ u <> uid (user p) ->
     reviews (stepReview db o) !! (c, t, u) = reviews db !! (c, t, u)) /\
  (forall c t,
     tag_of v <> Some t \/ c <> cinemaId p ->
     stats (stepReview db o) !! (c, t) = stats db !! (c, t)).
Proof.
  destruct o as [p e v|p e v]; cbn [stepReview].
  - destruct (tag_of v) as [tag|] eqn:Htag;
      [|rewrite saveMyReview_no_tag by assumption; repeat split; reflexivity].
    destruct (fault e) as [err|] eqn:Hf;
      [rewrite (saveMyReview_fault p e v db err) by assumption;
       repeat split; reflexivity|].
    destruct (reviews db !! (cinemaId p, tag, uid (user p))) as [prev|] eqn:Hr;
      [rewrite (saveMyReview_update p e v db tag prev Htag Hf Hr)
      |rewrite (saveMyReview_create p e v db tag Htag Hf Hr)];
      cbn zeta; cbn [reviews stats likes];
      (split; [reflexivity|]; split;
       [intros c t u H; apply lookup_insert_ne; intros [= <- <- <-]
       |intros c t H; apply lookup_insert_ne; intros [= <- <-]]; intuition congruence).
  - destruct (tag_of v) as [tag|] eqn:Htag;
      [|rewrite deleteMyReview_no_tag by assumption; repeat split; reflexivity].
    destruct (fault e) as [err|] eqn:Hf;
      [rewrite (deleteMyReview_fault p e v db err) by assumption;
       repeat split; reflexivity|].
    destruct (reviews db !! (cinemaId p, tag, uid (user p))) as [prev|] eqn:Hr;
      [rewrite (deleteMyReview_present p e v db tag prev Htag Hf Hr)
      |rewrite (deleteMyReview_absent p e v db tag Htag Hr); repeat split; reflexivity].
    cbn zeta; cbn [reviews stats likes].
    split; [reflexivity|]; split;
      [intros c t u H; apply lookup_delete_ne; intros [= <- <- <-]
      |intros c t H; apply lookup_insert_ne; intros [= <- <-]]; intuition congruence.
Qed.

Lemma review_ops_frame_witness :
  likes (stepReview dbLiked (Delete propsA (at_time 3) (viewT emptyForm))) = likes dbLiked /\
  reviews (stepReview dbOneReview (Upsert propsB (at_time 2) (viewT (scores 1 1 1 1))))
    !! ("S", "T", "A") = reviews dbOneReview !! ("S", "T", "A").
Proof.
  split.
  - exact (proj1 (review_ops_frame (Delete propsA (at_time 3) (viewT emptyForm)) dbLiked)).
  - apply (proj1 (proj2 (review_ops_frame
                           (Upsert propsB (at_time 2) (viewT (scores 1 1 1 1)))
                           dbOneReview))).
    right; right. discriminate.
Defined.

(** X5: [toggleLike] never writes a stats document, never touches another
    review or another like record, never removes a review, and changes no
    field of the liked review other than [likeCount]. *)
Theorem toggleLike_frame (p : Props) (e : Env) (rid : string) (v : View) (db : Db) :
  let db' := snd (toggleLike p e rid v db) in
  stats db' = stats db /\
  (forall c t r,
     tag_of v <> Some t \/ c <> cinemaId p \/ r <> rid ->
     reviews db' !! (c, t, r) = reviews db !! (c, t, r)) /\
  (forall c t r u,
     tag_of v <> Some t \/ c <> cinemaId p \/ r <> rid \/ u <> uid (user p) ->
     likes db' !! (c, t, r, u) = likes db !! (c, t, r, u)) /\
  (forall ref row,
     reviews db !! ref = Some row ->
     exists row', reviews db' !! ref = Some row' /\
       Review.userId row' = Review.userId row /\
       Review.displayName row' = Review.displayName row /\
       Review.screen row' = Review.screen row /\
       Review.picture row' = Review.picture row /\
       Review.sound row' = Review.sound row /\
       Review.seat row' = Review.seat row /\
       Review.overall row' = Review.overall row /\
       Review.comment row' = Review.comment row /\
       Review.updatedAt row' = Review.updatedAt row /\
       Review.createdAt row' = Review.createdAt row).
Proof.
  intros db'. subst db'.
  assert (Hsame : forall d : Db,
            stats d = stats d /\
            (forall c t r, tag_of v <> Some t \/ c <> cinemaId p \/ r <> rid ->
               reviews d !! (c, t, r) = reviews d !! (c, t, r)) /\
            (forall c t r u,
               tag_of v <> Some t \/ c <> cinemaId p \/ r <> rid \/ u <> uid (user p) ->
               likes d !! (c, t, r, u) = likes d !! (c, t, r, u)) /\
            (forall ref row, reviews d !! ref = Some row ->
               exists row', reviews d !! ref = Some row' /\
                 Review.userId row' = Review.userId row /\
                 Review.displayName row' = Review.displayName row /\
                 Review.screen row' = Review.screen row /\
                 Review.picture row' = Review.picture row /\
                 Review.sound row' = Review.sound row /\
                 Review.seat row' = Review.seat row /\
                 Review.overall row' = Review.overall row /\
                 Review.comment row' = Review.comment row /\
                 Review.updatedAt row' = Review.updatedAt row /\
                 Review.createdAt row' = Review.createdAt row)).
  { intros d. repeat split; try reflexivity.
    intros ref row H. exists row. repeat split; try reflexivity. exact H. }
  destruct (tag_of v) as [tag|] eqn:Htag;
    [|rewrite toggleLike_no_tag by assumption; apply Hsame].
  destruct (flag (likeBusy v) rid) eqn:Hb;
    [rewrite toggleLike_busy by assumption; apply Hsame|].
  destruct (fault e) as [err|] eqn:Hf;
    [rewrite (toggleLike_fault p e v db rid err) by assumption; apply Hsame|].
  clear Hsame.
  assert (Hrow : forall n ref row,
            reviews db !! ref = Some row ->
            exists row',
              <[(cinemaId p, tag, rid) :=
                  withLikeCount n (reviews db !! (cinemaId p, tag, rid))]> (reviews db)
                !! ref = Some row' /\
              Review.userId row' = Review.userId row /\
              Review.displayName row' = Review.displayName row /\
              Review.screen row' = Review.screen row /\
              Review.picture row' = Review.picture row /\
              Review.sound row' = Review.sound row /\
              Review.seat row' = Review.seat row /\
              Review.overall row' = Review.overall row /\
              Review.comment row' = Review.comment row /\
              Review.updatedAt row' = Review.updatedAt row /\
              Review.createdAt row' = Review.createdAt row).
  { intros n ref row H.
    destruct (decide ((cinemaId p, tag, rid) = ref)) as [<-|Hne].
    - rewrite lookup_insert_eq, H. eexists. split; [reflexivity|].
      repeat split; reflexivity.
    - rewrite lookup_insert_ne by exact Hne. exists row.
      split; [exact H|]. repeat split; reflexivity. }
  destruct (likes db !! (cinemaId p, tag, rid, uid (user p))) as [l|] eqn:Hl;
    [rewrite (toggleLike_unlike p e v db tag rid l Htag Hb Hf Hl)
    |rewrite (toggleLike_like p e v db tag rid Htag Hb Hf Hl)];
    cbn [reviews stats likes];
    (split; [reflexivity|]; split; [|split; [|apply Hrow]]).
  - intros c t r H. apply lookup_insert_ne. intros [= <- <- <-]. intuition congruence.
  - intros c t r u H. apply lookup_delete_ne. intros [= <- <- <- <-]. intuition congruence.
  - intros c t r H. apply lookup_insert_ne. intros [= <- <- <-]. intuition congruence.
  - intros c t r u H. apply lookup_insert_ne. intros [= <- <- <- <-]. intuition congruence.
Qed.

Lemma toggleLike_frame_witness :
  stats dbLiked = stats dbOneReview /\
  exists row', reviews dbLiked !! ("S", "T", "A") = Some row' /\
    Review.overall row' = Some (Num (formOverall (scores 4 4 4 4))).
Proof.
  destruct (toggleLike_frame propsB (at_time 2) "A" (viewT emptyForm) dbOneReview)
    as (Hs & _ & _ & Hrow).
  split; [exact Hs|].
  destruct (Hrow ("S", "T", "A") _ eq_refl) as (row' & H & _ & _ & _ & _ & _ & _ & Ho & _).
  exists row'. split; [exact H | exact Ho].
Defined.

(** ** How the review operations compose *)

(** [saveMyReview] leaves the selected tag and the form as they were. *)
Lemma saveMyReview_view (p : Props) (e : Env) (v : View) (db : Db) :
  tag_of (fst (saveMyReview p e v db)) = tag_of v /\
  myReview (fst (saveMyReview p e v db)) = myReview v.
Proof.
  unfold saveMyReview. destruct (tag_of v) as [tag|] eqn:Htag;
    [|cbn [fst]; split; [exact Htag | reflexivity]].
  destruct (runTransaction e _ db) as [[err|a] db']; cbn [fst];
    (split; [unfold tag_of in *; exact Htag | reflexivity]).
Qed.

Lemma strict_eq_proper (a b : Q) : a == b -> strict_eq a 0 = strict_eq b 0.
Proof.
  intros H. unfold strict_eq.
  destruct (Qeq_bool a 0) eqn:Ea, (Qeq_bool b 0) eqn:Eb; try reflexivity.
  - apply Qeq_bool_iff in Ea. rewrite H in Ea. apply Qeq_bool_iff in Ea. congruence.
  - apply Qeq_bool_iff in Eb. rewrite <- H in Eb. apply Qeq_bool_iff in Eb. congruence.
Qed.

(** X6: saving the same form a second time creates no second row and does
    not move the aggregate: the stats count and the number of live reviews
    are those after the first save, the stats sum is equal, and the like
    counter of the row is kept. *)
Theorem upsert_twice_idempotent (p : Props) (e1 e2 : Env) (v : View) (db : Db)
    (tag : string) :
  tag_of v = Some tag -> fault e1 = None ->
  let k := (cinemaId p, tag) in
  let rref := (cinemaId p, tag, uid (user p)) in
  let db1 := snd (saveMyReview p e1 v db) in
  let db2 := snd (saveMyReview p e2 (fst (saveMyReview p e1 v db)) db1) in
  statsCount db2 k = statsCount db1 k /\
  statsSum db2 k == statsSum db1 k /\
  liveCount db2 k = liveCount db1 k /\
  likeCountOf db2 rref = likeCountOf db1 rref.
Proof.
  intros Htag Hf1 k rref db1 db2.
  destruct (saveMyReview_view p e1 v db) as [Htag1 Hform1].
  rewrite Htag in Htag1.
  destruct (stored_row_of_saveMyReview p e1 v db tag Htag Hf1)
    as (r1 & Hr1 & _ & _ & _ & _ & Ho1).
  fold rref db1 in Hr1.
  destruct (fault e2) as [err|] eqn:Hf2.
  { subst db2. rewrite (saveMyReview_fault p e2 _ db1 err Hf2).
    repeat split; reflexivity. }
  subst db2.
  rewrite (saveMyReview_update p e2 _ db1 tag r1 Htag1 Hf2 Hr1). cbn zeta.
  fold k rref. rewrite Hform1.
  assert (Hold : readOverall r1 = formOverall (myReview v)).
  { unfold readOverall. now rewrite Ho1. }
  rewrite Hold.
  destruct db1 as [rv st lk]. cbn [reviews stats likes] in *.
  rewrite statsCount_insert_eq, statsSum_insert_eq, likeCountOf_insert_eq.
  cbn [Stats.count Stats.sumOverall Review.likeCount nullish Number].
  split; [reflexivity|]. split; [ring|]. split.
  - unfold liveCount, k, rref.
    rewrite (liveReviews_insert_same rv st _ lk _).
    apply map_size_insert_Some. rewrite liveReviews_lookup. now exists r1.
  - unfold likeCountOf. cbn [reviews]. fold rref. now rewrite Hr1.
Qed.

Lemma upsert_twice_idempotent_witness :
  statsCount (snd (saveMyReview propsA (at_time 2)
                     (fst (saveMyReview propsA (at_time 1) (viewT (scores 4 4 4 4)) empty_db))
                     dbOneReview)) ("S", "T")
  = statsCount dbOneReview ("S", "T").
Proof.
  exact (proj1 (upsert_twice_idempotent propsA (at_time 1) (at_time 2)
                  (viewT (scores 4 4 4 4)) empty_db "T" eq_refl eq_refl)).
Defined.

(** No live review, no sum. *)
Lemma liveReviews_empty_sum (db : Db) (k : StatsRef) :
  liveCount db k = 0%nat -> liveSum db k = 0.
Proof.
  unfold liveCount, liveSum. intros H. apply map_size_empty_inv in H.
  rewrite H. apply sumOverallOf_empty.
Qed.

(** X7: on a database whose stats agree with the live reviews, creating a
    review and then deleting it puts every review row and every like record
    back and restores the stats count, sum and average of the key. *)
Theorem create_then_delete_restores (p : Props) (e1 e2 : Env) (v : View) (db : Db)
    (tag : string) :
  tag_of v = Some tag -> fault e1 = None -> fault e2 = None ->
  reviews db !! (cinemaId p, tag, uid (user p)) = None ->
  statsAgree db (cinemaId p, tag) ->
  let k := (cinemaId p, tag) in
  let db1 := snd (saveMyReview p e1 v db) in
  let db2 := snd (deleteMyReview p e2 (fst (saveMyReview p e1 v db)) db1) in
  reviews db2 = reviews db /\
  likes db2 = likes db /\
  statsCount db2 k == statsCount db k /\
  statsSum db2 k == statsSum db k /\
  statsAvg db2 k == statsAvg db k.
Proof.
  intros Htag Hf1 Hf2 Hr (Hc & Hs & Ha) k db1 db2.
  destruct (saveMyReview_view p e1 v db) as [Htag1 _]. rewrite Htag in Htag1.
  subst db2 db1 k.
  rewrite (saveMyReview_create p e1 v db tag Htag Hf1 Hr). cbn zeta.
  erewrite (deleteMyReview_present p e2 _ _ tag _ Htag1 Hf2);
    [|cbn [reviews]; apply lookup_insert_eq].
  cbn zeta. cbn [reviews stats likes].
  generalize dependent (cinemaId p, tag). intros k Hr Hc Hs Ha.
  rewrite !statsCount_insert_eq, !statsSum_insert_eq.
  cbn [Stats.count Stats.sumOverall nullish Number].
  unfold readOverall. cbn [Review.overall Number].
  rewrite statsAvg_insert_eq. cbn [Stats.avgOverall nullish Number].
  assert (Hn : 0 <= statsCount db k).
  { rewrite Hc. change 0 with (inject_Z 0). rewrite <- Zle_Qle. apply Nat2Z.is_nonneg. }
  assert (Hc2 : Math_max 0 (statsCount db k + 1 - 1) == statsCount db k).
  { unfold Math_max. rewrite Q.max_r by lra. ring. }
  assert (Hzero : statsCount db k == 0 -> statsSum db k == 0).
  { intros H0. rewrite Hs. rewrite Hc in H0.
    rewrite liveReviews_empty_sum; [reflexivity|].
    unfold Qeq, inject_Z in H0. cbn in H0. lia. }
  rewrite (strict_eq_proper _ _ Hc2).
  split; [now apply delete_insert_id|]. split; [reflexivity|].
  split; [exact Hc2|].
  unfold strict_eq in *. destruct (Qeq_bool (statsCount db k) 0) eqn:Hz.
  - apply Qeq_bool_iff in Hz. rewrite (Hzero Hz). split; [reflexivity|].
    now rewrite Ha.
  - split; [ring|]. rewrite Ha, Hc2.
    apply Qeq_bool_neq in Hz. field. exact Hz.
Qed.

Lemma create_then_delete_restores_witness :
  reviews (snd (deleteMyReview propsA (at_time 2)
                  (fst (saveMyReview propsA (at_time 1) (viewT (scores 4 4 4 4)) empty_db))
                  dbOneReview)) = reviews empty_db.
Proof.
  refine (proj1 (create_then_delete_restores propsA (at_time 1) (at_time 2)
                   (viewT (scores 4 4 4 4)) empty_db "T" eq_refl eq_refl eq_refl eq_refl _)).
  apply statsConsistent_empty.
Defined.

(** ** The review list and the liked flags *)

Lemma find_own_row (docs : list (string * Review.t)) (u : string) (row : Review.t) :
  NoDup (map fst docs) -> In (u, row) docs ->
  find (fun r => bool_decide (ReviewItem.id r = u)) (map toReviewItem docs)
  = Some (toReviewItem (u, row)).
Proof.
  induction docs as [|d docs IH]; intros Hnd Hin; [destruct Hin|].
  cbn [map] in Hnd. apply NoDup_cons in Hnd as [Hfresh Hnd].
  cbn [map find toReviewItem ReviewItem.id].
  destruct Hin as [->|Hin].
  - cbn [fst]. now rewrite bool_decide_eq_true_2.
  - rewrite bool_decide_eq_false_2; [now apply IH|].
    intros Heq. apply Hfresh. rewrite Heq.
    apply list_elem_of_In. change u with (fst (u, row)). now apply in_map.
Qed.

(** X8: after a committed save, a snapshot that holds the caller's stored
    row (document ids being unique) sets the form to exactly what was saved
    and leaves the editor closed: what the store gives back is what the
    user submitted. *)
Theorem saved_form_survives_snapshot (p : Props) (e : Env) (v : View) (db : Db)
    (tag : string) (docs : list (string * Review.t)) :
  tag_of v = Some tag -> fault e = None ->
  NoDup (map fst docs) ->
  (forall row,
     reviews (snd (saveMyReview p e v db)) !! (cinemaId p, tag, uid (user p)) = Some row ->
     In (uid (user p), row) docs) ->
  let v2 := snd (onReviewsSnapshot p docs (fst (saveMyReview p e v db))) in
  myReview v2 = myReview v /\ reviewEditorOpen v2 = false.
Proof.
  intros Htag Hf Hnd Hdocs v2. subst v2.
  assert (Hv1 : reviewEditorTouched (fst (saveMyReview p e v db)) = true /\
                reviewEditorOpen (fst (saveMyReview p e v db)) = false).
  { unfold saveMyReview, runTransaction. rewrite Htag, Hf.
    now destruct (saveMyReview_tx _ _ _ _ _ _ db []). }
  destruct Hv1 as [Htouched Hopen].
  assert (Hrow : exists row,
            reviews (snd (saveMyReview p e v db)) !! (cinemaId p, tag, uid (user p))
              = Some row /\
            Review.screen row = Some (Num (ReviewForm.screen (myReview v))) /\
            Review.picture row = Some (Num (ReviewForm.picture (myReview v))) /\
            Review.sound row = Some (Num (ReviewForm.sound (myReview v))) /\
            Review.seat row = Some (Num (ReviewForm.seat (myReview v))) /\
            Review.comment row = Some (ReviewForm.comment (myReview v))).
  { destruct (reviews db !! (cinemaId p, tag, uid (user p))) as [prev|] eqn:Hr;
      [rewrite (saveMyReview_update p e v db tag prev Htag Hf Hr)
      |rewrite (saveMyReview_create p e v db tag Htag Hf Hr)];
      cbn zeta; cbn [reviews]; rewrite lookup_insert_eq;
      eexists; (split; [reflexivity|]); repeat split; reflexivity. }
  destruct Hrow as (row & Hrow & Hs & Hp & Hso & Hse & Hco).
  specialize (Hdocs row Hrow).
  unfold onReviewsSnapshot. rewrite (find_own_row docs _ row Hnd Hdocs).
  cbn [snd]. rewrite Htouched. cbn [myReview setMyReview reviewEditorOpen].
  split; [|exact Hopen].
  unfold toReviewItem. cbn [snd ReviewItem.screen ReviewItem.picture ReviewItem.sound
                            ReviewItem.seat ReviewItem.comment].
  rewrite Hs, Hp, Hso, Hse, Hco. cbn [nullish Number text_or].
  now destruct (myReview v).
Qed.

Lemma saved_form_survives_snapshot_witness :
  myReview (snd (onReviewsSnapshot propsA
                   (map (fun kr => (snd (fst kr), snd kr))
                        (map_to_list (liveReviews dbOneReview ("S", "T"))))
                   (fst (saveMyReview propsA (at_time 1) (viewT (scores 4 4 4 4))
                           empty_db))))
  = scores 4 4 4 4.
Proof.
  refine (proj1 (saved_form_survives_snapshot propsA (at_time 1) (viewT (scores 4 4 4 4))
                   empty_db "T" _ eq_refl eq_refl _ _)).
  - vm_compute. repeat constructor. intros H. inversion H.
  - intros row H. vm_compute in H. injection H as <-. vm_compute. left. reflexivity.
Defined.

Lemma probeLikes_fold (f : string -> bool) (ids : list string) (acc : gmap string bool)
    (rid : string) :
  fold_left (fun next rl => <[fst rl := snd rl]> next)
            (map (fun i => (i, f i)) ids) acc !! rid
  = if decide (rid ∈ ids) then Some (f rid) else acc !! rid.
Proof.
  revert acc. induction ids as [|i ids IH]; intros acc; cbn [map fold_left].
  - rewrite decide_False by apply not_elem_of_nil. reflexivity.
  - rewrite IH. cbn [fst snd].
    destruct (decide (rid ∈ ids)) as [Hin|Hout].
    + rewrite decide_True by (now apply elem_of_cons; right). reflexivity.
    + destruct (decide (i = rid)) as [->|Hne].
      * rewrite decide_True by (now apply elem_of_cons; left). apply lookup_insert_eq.
      * rewrite decide_False by (rewrite elem_of_cons; intros [?|?]; congruence).
        now apply lookup_insert_ne.
Qed.

(** X9: the map the like probe builds has exactly the listed reviews as
    keys, and marks a review as liked if and only if the viewer's like
    record for it exists. *)
Theorem probeLikes_reflects_ledger (p : Props) (tag : string)
    (list : list ReviewItem.t) (db : Db) (rid : string) :
  probeLikes p tag list db !! rid
  = if decide (rid ∈ map ReviewItem.id list)
    then Some (bool_decide (is_Some (likes db !! (cinemaId p, tag, rid, uid (user p)))))
    else None.
Proof.
  unfold probeLikes.
  pose proof (probeLikes_fold
                (fun i => bool_decide (is_Some (likes db !! (cinemaId p, tag, i,
                                                             uid (user p)))))
                (map ReviewItem.id list) ∅ rid) as H.
  rewrite map_map in H. rewrite H.
  destruct (decide (rid ∈ map ReviewItem.id list)); [reflexivity | apply lookup_empty].
Qed.

Lemma toggleLike_likedMap (p : Props) (e : Env) (rid : string) (v : View) (db : Db)
    (tag : string) :
  tag_of v = Some tag -> flag (likeBusy v) rid = false ->
  likedMap (fst (toggleLike p e rid v db))
  = match fault e with
    | None => <[rid := negb (flag (likedMap v) rid)]> (likedMap v)
    | Some _ => likedMap v
    end.
Proof.
  intros Htag Hb. unfold toggleLike, runTransaction. rewrite Htag, Hb.
  destruct (fault e); [reflexivity|].
  now destruct (toggleLike_tx e _ _ db []).
Qed.

(** X10: a toggle moves the page's liked flag of the review and the like
    record together or not at all: the flag agrees with the ledger after
    the call if and only if it agreed before.  A flag that was stale stays
    stale until the next probe. *)
Theorem toggleLike_flag_tracks_ledger (p : Props) (e : Env) (rid : string) (v : View)
    (db : Db) (tag : string) :
  tag_of v = Some tag ->
  let lref := (cinemaId p, tag, rid, uid (user p)) in
  let v' := fst (toggleLike p e rid v db) in
  let db' := snd (toggleLike p e rid v db) in
  flag (likedMap v') rid = bool_decide (is_Some (likes db' !! lref))
  <-> flag (likedMap v) rid = bool_decide (is_Some (likes db !! lref)).
Proof.
  intros Htag lref v' db'. subst v' db'.
  destruct (flag (likeBusy v) rid) eqn:Hb;
    [now rewrite toggleLike_busy|].
  rewrite (toggleLike_likedMap p e rid v db tag Htag Hb).
  destruct (fault e) as [err|] eqn:Hf;
    [now rewrite (toggleLike_fault p e v db rid err)|].
  unfold flag at 1. rewrite lookup_insert_eq.
  destruct (likes db !! lref) as [l|] eqn:Hl; subst lref.
  - rewrite (toggleLike_unlike p e v db tag rid l Htag Hb Hf Hl). cbn [likes].
    rewrite lookup_delete_eq.
    rewrite bool_decide_eq_false_2 by (intros [? ?]; discriminate).
    rewrite bool_decide_eq_true_2 by (now eexists).
    destruct (flag (likedMap v) rid); cbn; split; congruence.
  - rewrite (toggleLike_like p e v db tag rid Htag Hb Hf Hl). cbn [likes].
    rewrite lookup_insert_eq.
    rewrite bool_decide_eq_true_2 by (now eexists).
    rewrite bool_decide_eq_false_2 by (intros [? ?]; discriminate).
    destruct (flag (likedMap v) rid); cbn; split; congruence.
Qed.

Lemma toggleLike_flag_tracks_ledger_witness :
  flag (likedMap (fst (toggleLike propsB (at_time 2) "A" (viewT emptyForm) dbOneReview))) "A"
  = bool_decide (is_Some (likes dbLiked !! ("S", "T", "A", "B"))).
Proof.
  apply (toggleLike_flag_tracks_ledger propsB (at_time 2) "A" (viewT emptyForm)
           dbOneReview "T" eq_refl).
  vm_compute. reflexivity.
Defined.

(** ** The summary of the page against the stats document *)

(** A row after a review operation is a row from before, or the row just
    saved. *)
Lemma stepReview_row_cases (db : Db) (o : ReviewOp) (ref : ReviewRef) (r : Review.t) :
  reviews (stepReview db o) !! ref = Some r ->
  reviews db !! ref = Some r \/
  exists f,
    Review.screen r = Some (Num (ReviewForm.screen f)) /\
    Review.picture r = Some (Num (ReviewForm.picture f)) /\
    Review.sound r = Some (Num (ReviewForm.sound f)) /\
    Review.seat r = Some (Num (ReviewForm.seat f)) /\
    Review.overall r = Some (Num (formOverall f)).
Proof.
  destruct o as [p e v|p e v]; cbn [stepReview]; intros H.
  - destruct (tag_of v) as [tag|] eqn:Htag;
      [|rewrite saveMyReview_no_tag in H by assumption; now left].
    destruct (fault e) as [err|] eqn:Hf;
      [rewrite (saveMyReview_fault p e v db err) in H by assumption; now left|].
    destruct (decide (ref = (cinemaId p, tag, uid (user p)))) as [->|Hne].
    + right. exists (myReview v).
      destruct (stored_row_of_saveMyReview p e v db tag Htag Hf) as (r' & Hr' & Hfields).
      rewrite Hr' in H. injection H as <-. exact Hfields.
    + left.
      destruct (reviews db !! (cinemaId p, tag, uid (user p))) as [prev|] eqn:Hr;
        [rewrite (saveMyReview_update p e v db tag prev Htag Hf Hr) in H
        |rewrite (saveMyReview_create p e v db tag Htag Hf Hr) in H];
        cbn zeta in H; cbn [reviews] in H; now rewrite lookup_insert_ne in H.
  - left.
    destruct (tag_of v) as [tag|] eqn:Htag;
      [|now rewrite deleteMyReview_no_tag in H].
    destruct (fault e) as [err|] eqn:Hf;
      [now rewrite (deleteMyReview_fault p e v db err) in H|].
    destruct (reviews db !! (cinemaId p, tag, uid (user p))) as [prev|] eqn:Hr;
      [|now rewrite (deleteMyReview_absent p e v db tag) in H].
    rewrite (deleteMyReview_present p e v db tag prev Htag Hf Hr) in H.
    cbn zeta in H. cbn [reviews] in H. now apply lookup_delete_Some in H as [_ H].
Qed.

Lemma runReviews_overallIsMean (ops : list ReviewOp) :
  overallIsMean (runReviews ops empty_db).
Proof.
  unfold runReviews.
  assert (H0 : overallIsMean empty_db).
  { intros ref r H. cbn in H. rewrite lookup_empty in H. discriminate. }
  revert H0. generalize empty_db.
  induction ops as [|o ops IH]; intros d Hd; cbn [fold_left]; [exact Hd|].
  apply IH. intros ref r H.
  apply stepReview_row_cases in H as [H|(f & Hs & Hp & Hso & Hse & Ho)].
  - exact (Hd ref r H).
  - unfold storedOverall, subscoreMean. rewrite Ho, Hs, Hp, Hso, Hse. reflexivity.
Qed.

(** The sum of a list of rationals by [reduce] does not depend on the order. *)
Lemma reduce_sum_foldr {A : Type} (g : A -> Q) (l : list A) (a : Q) :
  fold_left (fun acc x => acc + g x) l a == a + foldr (fun x acc => acc + g x) 0 l.
Proof.
  revert a. induction l as [|x l IH]; intros a; cbn [fold_left foldr].
  - ring.
  - rewrite IH. ring.
Qed.

Lemma foldr_sum_perm {A : Type} (g : A -> Q) (l l' : list A) :
  l ≡ₚ l' ->
  foldr (fun x acc => acc + g x) 0 l == foldr (fun x acc => acc + g x) 0 l'.
Proof.
  induction 1 as [|x l l' _ IH|x y l|l l' l'' _ IH1 _ IH2]; cbn [foldr].
  - reflexivity.
  - now rewrite IH.
  - ring.
  - now rewrite IH1.
Qed.

Lemma sumOverallOf_foldr (m : gmap ReviewRef Review.t) :
  (forall ref r, m !! ref = Some r -> storedOverall r = subscoreMean r) ->
  sumOverallOf m
  = foldr (fun d acc => acc + subscoreMean (snd d)) 0
          (map (fun kr : ReviewRef * Review.t => (snd (fst kr), snd kr)) (map_to_list m)).
Proof.
  intros Hm. unfold sumOverallOf. rewrite map_fold_foldr.
  assert (Hl : Forall (fun kr => storedOverall (snd kr) = subscoreMean (snd kr))
                      (map_to_list m)).
  { apply Forall_forall. intros [ref r] Hin. apply elem_of_map_to_list in Hin.
    exact (Hm ref r Hin). }
  induction Hl as [|[ref r] l Hr _ IH]; cbn [map foldr uncurry fst snd];
    [reflexivity|].
  cbn [snd] in Hr. now rewrite IH, Hr.
Qed.

(** X11: after any sequence of review upserts and deletes from the empty
    database, the summary the page computes from a full snapshot of the
    reviews under a key (their number, and the mean of the means of their
    sub-scores) equals the count and the average kept in the stats
    document of that key. *)
Theorem tagStats_agrees_with_stats (ops : list ReviewOp) (k : StatsRef) (v : View)
    (docs : list (string * Review.t)) :
  let db := runReviews ops empty_db in
  is_Some (tag_of v) -> snapshotOf db k docs ->
  exists ts, tagStats v (map toReviewItem docs) = Some ts /\
    inject_Z (Z.of_nat (TagStats.count ts)) == statsCount db k /\
    TagStats.avgOverall ts == statsAvg db k.
Proof.
  intros db [tag Htag] Hdocs.
  destruct (aggregate_follows_reviews_all ops k) as (Hc & Hs & Ha).
  fold db in Hc, Hs, Ha.
  pose proof (runReviews_overallIsMean ops) as Hmean. fold db in Hmean.
  assert (Hlen : length docs = liveCount db k).
  { rewrite (Permutation_length Hdocs), length_map. apply length_map_to_list. }
  assert (Hsum : fold_left (fun acc r =>
                    acc + overallScore (ReviewItem.screen r) (ReviewItem.picture r)
                                       (ReviewItem.sound r) (ReviewItem.seat r))
                   (map toReviewItem docs) 0 == statsSum db k).
  { rewrite reduce_sum_foldr, Hs. unfold liveSum.
    rewrite sumOverallOf_foldr.
    - rewrite <- (foldr_sum_perm (fun d => subscoreMean (snd d)) _ _ Hdocs).
      clear. induction docs as [|d docs IH]; cbn [map foldr]; [ring|].
      rewrite <- IH. unfold toReviewItem, subscoreMean, overallScore.
      cbn [ReviewItem.screen ReviewItem.picture ReviewItem.sound ReviewItem.seat].
      ring.
    - intros ref r H. apply map_lookup_filter_Some_1_1 in H. exact (Hmean ref r H). }
  unfold tagStats. rewrite Htag.
  destruct docs as [|d docs].
  - cbn [map]. eexists. split; [reflexivity|]. cbn [TagStats.count TagStats.avgOverall].
    cbn [length] in Hlen. rewrite <- Hlen in Hc. cbn in Hc.
    split; [now rewrite Hc|].
    rewrite Ha, (strict_eq_proper _ 0 Hc). reflexivity.
  - cbn [map]. eexists. split; [reflexivity|].
    cbn [TagStats.count TagStats.avgOverall].
    change (toReviewItem d :: map toReviewItem docs) with (map toReviewItem (d :: docs)).
    rewrite length_map, Hlen. split; [now rewrite Hc|].
    rewrite Hsum, Ha, <- Hc.
    assert (Hnz : ~ statsCount db k == 0).
    { rewrite Hc, <- Hlen. cbn [length]. unfold Qeq, inject_Z. cbn. lia. }
    unfold strict_eq. destruct (Qeq_bool (statsCount db k) 0) eqn:Hz;
      [apply Qeq_bool_iff in Hz; contradiction | reflexivity].
Qed.

Lemma tagStats_agrees_with_stats_witness :
  exists ts,
    tagStats (viewT emptyForm)
      (map toReviewItem
         (map (fun kr => (snd (fst kr), snd kr))
              (map_to_list (liveReviews dbOneReview ("S", "T"))))) = Some ts /\
    inject_Z (Z.of_nat (TagStats.count ts)) == statsCount dbOneReview ("S", "T") /\
    TagStats.avgOverall ts == statsAvg dbOneReview ("S", "T").
Proof.
  apply (tagStats_agrees_with_stats
           [Upsert propsA (at_time 1) (viewT (scores 4 4 4 4))] ("S", "T")
           (viewT emptyForm)).
  - now exists "T".
  - unfold snapshotOf. reflexivity.
Defined.

(** ** Favorites *)

(** X12: [toggleFavorite] decides from the store, not from the flag it
    shows: when both store calls succeed, the favorite document of
    (user, cinema) is there afterwards if and only if it was not there
    before, the flag says which, and no other favorite is touched; when a
    call fails, the promise is rejected and neither the store nor the flag
    changes. *)
Theorem toggleFavorite_follows_store (p : Props) (e : FavEnv) (v : FavView)
    (favs : gmap FavoriteRef Favorite.t) :
  cinemaId p <> "" ->
  let favRef := (uid (user p), cinemaId p) in
  let '(rejected, v', favs') := toggleFavorite p e v favs in
  favBusy v' = false /\
  (forall ref, ref <> favRef -> favs' !! ref = favs !! ref) /\
  match getDoc_fault e, write_fault e with
  | None, None =>
      rejected = None /\
      (is_Some (favs' !! favRef) <-> favs !! favRef = None) /\
      isFavorite v' = bool_decide (is_Some (favs' !! favRef))
  | _, _ =>
      is_Some rejected /\ favs' = favs /\ isFavorite v' = isFavorite v
  end.
Proof.
  intros Hc favRef. unfold toggleFavorite.
  rewrite decide_False by exact Hc. fold favRef.
  destruct (getDoc_fault e) as [err|]; [now repeat split|].
  destruct (favs !! favRef) as [d|] eqn:Hd, (write_fault e) as [err|];
    try (cbn; rewrite ?Hd; now repeat split).
  - split; [reflexivity|]. split; [intros ref H; now apply lookup_delete_ne|].
    rewrite lookup_delete_eq. split; [reflexivity|]. split.
    + split; [intros [? ?]; discriminate | discriminate].
    + symmetry. apply bool_decide_eq_false_2. intros [? ?]; discriminate.
  - split; [reflexivity|]. split; [intros ref H; now apply lookup_insert_ne|].
    rewrite lookup_insert_eq. split; [reflexivity|]. split.
    + split; [reflexivity | now eexists].
    + symmetry. apply bool_decide_eq_true_2. now eexists.
Qed.

Lemma toggleFavorite_follows_store_witness :
  let '(rejected, v', favs') :=
    toggleFavorite propsA {| fav_now := 1; getDoc_fault := None; write_fault := None |}
      {| isFavorite := true; favBusy := false |} ∅ in
  rejected = None /\ isFavorite v' = bool_decide (is_Some (favs' !! ("A", "S"))).
Proof.
  pose proof (toggleFavorite_follows_store propsA
                {| fav_now := 1; getDoc_fault := None; write_fault := None |}
                {| isFavorite := true; favBusy := false |} ∅) as H.
  cbv beta zeta in H |- *.
  destruct (toggleFavorite _ _ _ _) as [[rejected v'] favs'].
  destruct H as (_ & _ & H1 & _ & H3); [discriminate|].
  split; [exact H1 | exact H3].
Defined.

(** X13: a cinema favorited on the detail page and then removed on the
    Favorites page leaves the favorites of the store exactly as they were,
    and the list of the Favorites page without any entry of that cinema,
    the other entries in their order. *)
Theorem favorite_then_unfavorite (p : Props) (e : FavEnv) (v : FavView)
    (fv : FavoritesView) (favs : gmap FavoriteRef Favorite.t) :
  cinemaId p <> "" ->
  getDoc_fault e = None -> write_fault e = None ->
  favs !! (uid (user p), cinemaId p) = None ->
  let favs1 := snd (toggleFavorite p e v favs) in
  let '(fv2, favs2) := unfavorite (user p) None (cinemaId p) fv favs1 in
  favs2 = favs /\
  fav_error fv2 = None /\
  Forall (fun x => Theater.id x <> cinemaId p) (items fv2) /\
  items fv2 = filter (fun x => Theater.id x <> cinemaId p) (items fv).
Proof.
  intros Hc Hg Hw Hnone. unfold toggleFavorite, unfavorite.
  rewrite decide_False by exact Hc. rewrite Hg, Hnone, Hw. cbn [snd items fav_error].
  split; [now apply delete_insert_id|]. split; [reflexivity|]. split; [|reflexivity].
  apply Forall_forall. intros x Hx. now apply list_elem_of_filter in Hx as [Hx _].
Qed.

Lemma favorite_then_unfavorite_witness :
  snd (unfavorite userA None "S" {| items := []; removingId := None; fav_error := None |}
         (snd (toggleFavorite propsA
                 {| fav_now := 1; getDoc_fault := None; write_fault := None |}
                 {| isFavorite := false; favBusy := false |} ∅))) = ∅.
Proof.
  pose proof (favorite_then_unfavorite propsA
                {| fav_now := 1; getDoc_fault := None; write_fault := None |}
                {| isFavorite := false; favBusy := false |}
                {| items := []; removingId := None; fav_error := None |} ∅) as H.
  cbv beta zeta in H.
  destruct (unfavorite _ _ _ _ _) as [fv2 favs2].
  destruct H as [H _]; try reflexivity; [discriminate|]. exact H.
Defined.

(** ** The sort of the ranking *)

Section ArraySort.
Context {A : Type}.
Variable compare : A -> A -> Q.

Lemma sort_insert_perm (x : A) (l : list A) : sort_insert compare x l ≡ₚ x :: l.
Proof.
  induction l as [|y l IH]; cbn [sort_insert]; [reflexivity|].
  destruct (Qle_bool (compare x y) 0); [reflexivity|].
  rewrite IH. apply Permutation_swap.
Qed.

Lemma Array_sort_perm (l : list A) : Array_sort compare l ≡ₚ l.
Proof.
  unfold Array_sort. induction l as [|x l IH]; cbn [foldr]; [reflexivity|].
  now rewrite sort_insert_perm, IH.
Qed.

Hypothesis compare_total : forall a b, compare a b <= 0 \/ compare b a <= 0.
Hypothesis compare_trans :
  forall a b c, compare a b <= 0 -> compare b c <= 0 -> compare a c <= 0.

Lemma sort_insert_sorted (x : A) (l : list A) :
  StronglySorted (fun a b => compare a b <= 0) l ->
  StronglySorted (fun a b => compare a b <= 0) (sort_insert compare x l).
Proof.
  induction 1 as [|y l Hl IH Hy]; cbn [sort_insert].
  - repeat constructor.
  - destruct (Qle_bool (compare x y) 0) eqn:E.
    + apply Qle_bool_iff in E. constructor; [now constructor|].
      constructor; [exact E|].
      eapply Forall_impl; [exact Hy|]. intros z Hz. now apply (compare_trans x y z).
    + constructor; [exact IH|].
      assert (Hyx : compare y x <= 0).
      { destruct (compare_total x y) as [H|H]; [|exact H].
        apply Qle_bool_iff in H. congruence. }
      rewrite sort_insert_perm. now constructor.
Qed.

Lemma Array_sort_sorted (l : list A) :
  StronglySorted (fun a b => compare a b <= 0) (Array_sort compare l).
Proof.
  unfold Array_sort. induction l as [|x l IH]; cbn [foldr]; [constructor|].
  now apply sort_insert_sorted.
Qed.
End ArraySort.

Lemma StronglySorted_impl {A : Type} (R R' : A -> A -> Prop) (l : list A) :
  (forall a b, R a b -> R' a b) -> StronglySorted R l -> StronglySorted R' l.
Proof.
  intros HR. induction 1 as [|x l _ IH Hx]; constructor; [exact IH|].
  eapply Forall_impl; [exact Hx|]. intros y. apply HR.
Qed.

Lemma Array_slice_prefix {A : Type} (n : Z) (l : list A) :
  (0 <= n)%Z -> Array_slice 0 n l = take (Z.to_nat n) l.
Proof.
  intros Hn. unfold Array_slice. cbn [Z.ltb Z.compare].
  destruct (n <? 0)%Z eqn:E; [apply Z.ltb_lt in E; lia|].
  rewrite !(Z.min_l 0) by lia. change (Z.to_nat 0) with 0%nat. rewrite drop_0.
  destruct (decide (n <= Z.of_nat (length l))%Z).
  - rewrite Z.min_l by lia. f_equal. lia.
  - rewrite Z.min_r by lia. rewrite !take_ge by lia. reflexivity.
Qed.

(** X14: the ranking holds at most ten items, all of them among the items
    collected, in descending order of average; the items left out are all
    the others, and none of them has a higher average than a ranked one.
    With ten items or fewer nothing is left out. *)
Theorem ranking_is_top_ten (items : list RankItem.t) :
  let ranking := rankingOf items in
  (length ranking <= 10)%nat /\
  StronglySorted (fun a b => RankItem.avgOverall b <= RankItem.avgOverall a) ranking /\
  exists rest,
    items ≡ₚ ranking ++ rest /\
    ((length items <= 10)%nat -> rest = []) /\
    forall x y, x ∈ ranking -> y ∈ rest ->
                RankItem.avgOverall y <= RankItem.avgOverall x.
Proof.
  intros ranking. subst ranking. unfold rankingOf.
  rewrite Array_slice_prefix by lia.
  set (compare := fun a b : RankItem.t => RankItem.avgOverall b - RankItem.avgOverall a).
  set (sorted := Array_sort compare items).
  assert (Hsorted : StronglySorted (fun a b => compare a b <= 0) sorted).
  { apply Array_sort_sorted; unfold compare; intros; lra. }
  assert (Hle : forall a b, compare a b <= 0 <->
                            RankItem.avgOverall b <= RankItem.avgOverall a).
  { intros a b. unfold compare. split; intros; lra. }
  assert (Hperm : sorted ≡ₚ items) by apply Array_sort_perm.
  split; [rewrite length_take; lia|]. split.
  - rewrite <- (take_drop (Z.to_nat 10) sorted) in Hsorted.
    apply StronglySorted_app_1_l in Hsorted.
    eapply StronglySorted_impl; [|exact Hsorted]. intros a b. apply Hle.
  - exists (drop (Z.to_nat 10) sorted). split; [|split].
    + now rewrite take_drop.
    + intros Hlen. apply drop_ge. rewrite (Permutation_length Hperm). exact Hlen.
    + intros x y Hx Hy. apply Hle.
      rewrite <- (take_drop (Z.to_nat 10) sorted) in Hsorted.
      apply (StronglySorted_app_1_elem_of _ _ _ x y Hsorted Hx Hy).
Qed.

Lemma ranking_is_top_ten_witness :
  let items :=
    [ {| RankItem.cinemaId := "S"; RankItem.cinemaName := "Star"; RankItem.tag := "T";
         RankItem.avgOverall := 3; RankItem.count := 2 |};
      {| RankItem.cinemaId := "M"; RankItem.cinemaName := "Moon"; RankItem.tag := "T";
         RankItem.avgOverall := 9 # 2; RankItem.count := 1 |} ] in
  (length (rankingOf items) <= 10)%nat /\
  StronglySorted (fun a b => RankItem.avgOverall b <= RankItem.avgOverall a)
                 (rankingOf items).
Proof.
  intros items.
  destruct (ranking_is_top_ten items) as (H1 & H2 & _).
  split; [exact H1 | exact H2].
Defined.

(** X15: after any sequence of review upserts and deletes from the empty
    database, and whatever the order in which the stats reads complete,
    every item of the ranking stands for a tag of a listed theater that
    has live reviews, its count is their number and its average their
    mean.  A tag without live reviews is never ranked. *)
Theorem ranking_reflects_live_reviews (ops : list ReviewOp) (theaters : list Theater.t)
    (items : list RankItem.t) (r : RankItem.t) :
  let db := runReviews ops empty_db in
  items ≡ₚ rankItems db theaters ->
  r ∈ rankingOf items ->
  let k := (RankItem.cinemaId r, RankItem.tag r) in
  (exists t tags, t ∈ theaters /\ Theater.tags t = Some tags /\
                  RankItem.tag r ∈ tags /\ Theater.id t = RankItem.cinemaId r) /\
  (0 < liveCount db k)%nat /\
  RankItem.count r == inject_Z (Z.of_nat (liveCount db k)) /\
  RankItem.avgOverall r == liveSum db k / inject_Z (Z.of_nat (liveCount db k)).
Proof.
  intros db Hperm Hr k.
  unfold rankingOf in Hr. rewrite Array_slice_prefix in Hr by lia.
  apply elem_of_take in Hr as (i & Hr & _). apply list_elem_of_lookup_2 in Hr.
  rewrite Array_sort_perm, Hperm in Hr.
  unfold rankItems in Hr. apply list_elem_of_In, in_flat_map in Hr as (t & Ht & Hr).
  apply list_elem_of_In, list_elem_of_omap in Hr as (tag & Htag & Hitem).
  unfold rankItemOf in Hitem.
  destruct (stats db !! (Theater.id t, tag)) as [raw|] eqn:Hraw; [|discriminate].
  destruct (Qlt_le_dec 0 _) as [Hpos|]; [|discriminate].
  injection Hitem as <-. subst k. cbn [RankItem.cinemaId RankItem.tag RankItem.count
                                        RankItem.avgOverall] in *.
  destruct (aggregate_follows_reviews_all ops (Theater.id t, tag)) as (Hc & Hs & Ha).
  fold db in Hc, Hs, Ha. unfold statsCount, statsSum, statsAvg in Hc, Hs, Ha.
  rewrite Hraw in Hc, Hs, Ha.
  assert (Hn : (0 < liveCount db (Theater.id t, tag))%nat).
  { rewrite Hc in Hpos. destruct (liveCount db (Theater.id t, tag)); [|lia].
    exfalso. revert Hpos. apply Qlt_irrefl. }
  split; [|split; [exact Hn|split; [exact Hc|]]].
  - destruct (Theater.tags t) as [tags|] eqn:Etags.
    + exists t, tags. repeat split; try assumption. now apply list_elem_of_In.
    + apply elem_of_nil in Htag. destruct Htag.
  - rewrite Ha.
    assert (Hnz : ~ Number (nullish (Stats.count raw) 0) == 0) by lra.
    unfold strict_eq. destruct (Qeq_bool _ 0) eqn:Hz;
      [apply Qeq_bool_iff in Hz; contradiction|].
    now rewrite Hs, Hc.
Qed.

Lemma ranking_reflects_live_reviews_witness :
  RankItem.count
    {| RankItem.cinemaId := "S"; RankItem.cinemaName := "Star"; RankItem.tag := "T";
       RankItem.avgOverall := statsAvg dbOneReview ("S", "T");
       RankItem.count := statsCount dbOneReview ("S", "T") |}
  == inject_Z (Z.of_nat (liveCount dbOneReview ("S", "T"))).
Proof.
  refine (proj1 (proj2 (proj2 (ranking_reflects_live_reviews
            [Upsert propsA (at_time 1) (viewT (scores 4 4 4 4))]
            [ {| Theater.id := "S"; Theater.name := "Star"; Theater.address := "";
                 Theater.lat := None; Theater.lng := None;
                 Theater.tags := Some ["T"; "U"] |} ]
            (rankItems dbOneReview
               [ {| Theater.id := "S"; Theater.name := "Star"; Theater.address := "";
                    Theater.lat := None; Theater.lng := None;
                    Theater.tags := Some ["T"; "U"] |} ])
            {| RankItem.cinemaId := "S"; RankItem.cinemaName := "Star"; RankItem.tag := "T";
               RankItem.avgOverall := statsAvg dbOneReview ("S", "T");
               RankItem.count := statsCount dbOneReview ("S", "T") |} _ _)))).
  - reflexivity.
  - vm_compute. apply list_elem_of_here.
Defined.

(** ** Saves of different rows commute *)






(** ** Like records outlive the review *)

(** [deleteMyReview] leaves the tag selected. *)
Lemma deleteMyReview_view (p : Props) (e : Env) (v : View) (db : Db) :
  tag_of (fst (deleteMyReview p e v db)) = tag_of v.
Proof.
  unfold deleteMyReview. destruct (tag_of v) as [tag|] eqn:Htag; [|exact Htag].
  destruct (runTransaction e _ db) as [[err|a] db']; cbn [fst];
    unfold tag_of in *; exact Htag.
Qed.

(** X17: when an author deletes a review and submits a new one, every like
    record of the old review is still there, while the new row starts with
    [likeCount] 0: the counter no longer counts the like records. *)
Theorem recreate_keeps_likes_resets_counter (p : Props) (e1 e2 : Env) (v : View)
    (db : Db) (tag : string) (prev : Review.t) :
  tag_of v = Some tag -> fault e1 = None -> fault e2 = None ->
  reviews db !! (cinemaId p, tag, uid (user p)) = Some prev ->
  let db1 := snd (deleteMyReview p e1 v db) in
  let db2 := snd (saveMyReview p e2 (fst (deleteMyReview p e1 v db)) db1) in
  likes db2 = likes db /\
  likeCountOf db2 (cinemaId p, tag, uid (user p)) = 0.
Proof.
  intros Htag Hf1 Hf2 Hr db1 db2. subst db2 db1.
  pose proof (deleteMyReview_view p e1 v db) as Htag1. rewrite Htag in Htag1.
  rewrite (deleteMyReview_present p e1 v db tag prev Htag Hf1 Hr). cbn zeta.
  erewrite (saveMyReview_create p e2 _ _ tag Htag1 Hf2);
    [|cbn [reviews]; apply lookup_delete_eq].
  cbn zeta. cbn [likes]. split; [reflexivity|].
  now rewrite likeCountOf_insert_eq.
Qed.

Lemma recreate_keeps_likes_resets_counter_witness :
  is_Some (likes (snd (saveMyReview propsA (at_time 4)
                         (fst (deleteMyReview propsA (at_time 3) (viewT emptyForm) dbLiked))
                         (snd (deleteMyReview propsA (at_time 3) (viewT emptyForm) dbLiked))))
             !! ("S", "T", "A", "B")) /\
  likeCountOf (snd (saveMyReview propsA (at_time 4)
                      (fst (deleteMyReview propsA (at_time 3) (viewT emptyForm) dbLiked))
                      (snd (deleteMyReview propsA (at_time 3) (viewT emptyForm) dbLiked))))
              ("S", "T", "A") = 0.
Proof.
  destruct (recreate_keeps_likes_resets_counter propsA (at_time 3) (at_time 4)
              (viewT emptyForm) dbLiked "T" _ eq_refl eq_refl eq_refl eq_refl) as [Hl Hc].
  split; [|exact Hc]. rewrite Hl. vm_compute. eexists; reflexivity.
Defined.

(** ** Sign-up *)

Lemma handleEmailAuth_keeps_nicknames (js : StringOps) (e : AuthEnv) (f : AuthForm)
    (st : UserStore) (key : string) (d : NickDoc.t) :
  nicknames st !! key = Some d ->
  nicknames (snd (handleEmailAuth js e f st)) !! key = Some d.
Proof.
  intros H. unfold handleEmailAuth.
  repeat first [ exact H
               | progress cbn [snd nicknames]
               | match goal with
                 | |- context [if ?c then _ else _] => destruct c eqn:?
                 | |- context [match createUser e with _ => _ end] =>
                     destruct (createUser e)
                 | |- context [match ?o with Some _ => _ | None => _ end] =>
                     destruct o eqn:?
                 end ].
  all: rewrite lookup_insert_ne; [exact H|]; intros <-; congruence.
Qed.

(** X18: a nickname document, once written, is never written again: after
    any sequence of sign-up and sign-in calls, whatever Firebase answers,
    every nickname reserved before still belongs to the same account. *)
Theorem nickname_reserved_once (js : StringOps) (calls : list (AuthEnv * AuthForm))
    (st : UserStore) (key : string) (d : NickDoc.t) :
  nicknames st !! key = Some d ->
  nicknames (authCalls js calls st) !! key = Some d.
Proof.
  unfold authCalls. revert st.
  induction calls as [|c calls IH]; intros st H; cbn [fold_left]; [exact H|].
  apply IH. now apply handleEmailAuth_keeps_nicknames.
Qed.

Lemma nickname_reserved_once_witness :
  exists d,
    nicknames (authCalls sampleOps
                 [ (accountEnv 1 "u1", signUpForm "neo");
                   (accountEnv 2 "u2", signUpForm "neo") ] emptyUserStore) !! "neo" = Some d /\
    NickDoc.uid d = Some "u1".
Proof.
  eexists. split.
  - apply (nickname_reserved_once sampleOps [ (accountEnv 2 "u2", signUpForm "neo") ]
             (snd (handleEmailAuth sampleOps (accountEnv 1 "u1") (signUpForm "neo")
                     emptyUserStore)) "neo").
    reflexivity.
  - reflexivity.
Defined.

(** X19: when the form passes its checks and the account is created but the
    nickname is already reserved, the call ends with the message that the
    nickname is in use and writes no document, yet the account exists: it
    has no nickname document, no user document and no display name. *)
Theorem taken_nickname_leaves_account (js : StringOps) (e : AuthEnv) (f : AuthForm)
    (st : UserStore) (cred : Credential) (d : NickDoc.t) :
  isSignUp f = true ->
  trim js (nickname f) <> "" ->
  (2 <= String_length js (trim js (nickname f)))%nat ->
  passwordConfirm f = form_password f ->
  createUser e = inr cred -> reserve_fault e = None ->
  nicknames st !! toLowerCase js (trim js (nickname f)) = Some d ->
  handleEmailAuth js e f st
  = (Some nickname_taken,
     {| accountCreated := Some cred; signedIn := false; displayNameSet := None |},
     st).
Proof.
  intros Hs Hn Hl Hp Hc Hr Hd. unfold handleEmailAuth.
  rewrite Hs, decide_False by exact Hn.
  destruct (String_length js (trim js (nickname f)) <? 2)%nat eqn:E;
    [apply Nat.ltb_lt in E; lia|].
  rewrite decide_False by (intros H; now apply H).
  now rewrite Hc, Hr, Hd.
Qed.

Lemma taken_nickname_leaves_account_witness :
  fst (fst (handleEmailAuth sampleOps (accountEnv 2 "u2") (signUpForm "neo")
              (snd (handleEmailAuth sampleOps (accountEnv 1 "u1") (signUpForm "neo")
                      emptyUserStore))))
  = Some nickname_taken.
Proof.
  erewrite (taken_nickname_leaves_account sampleOps (accountEnv 2 "u2") (signUpForm "neo"));
    try reflexivity.
  - discriminate.
  - vm_compute. lia.
Defined.

(** X20: a sign-up whose nickname is blank or shorter than two characters,
    or whose password confirmation differs, stops with an error before any
    account is created or document written; a sign-in never writes a
    document. *)
Theorem rejected_form_has_no_effect (js : StringOps) (e : AuthEnv) (f : AuthForm)
    (st : UserStore) :
  (if isSignUp f
   then trim js (nickname f) = "" \/
        (String_length js (trim js (nickname f)) < 2)%nat \/
        passwordConfirm f <> form_password f
   else True) ->
  let '(err, effects, st') := handleEmailAuth js e f st in
  st' = st /\
  accountCreated effects = None /\
  (isSignUp f = true -> is_Some err /\ effects = no_effects).
Proof.
  intros H. unfold handleEmailAuth.
  destruct (isSignUp f).
  - destruct (decide (trim js (nickname f) = "")) as [|Hn];
      [repeat split; now eexists|].
    destruct (String_length js (trim js (nickname f)) <? 2)%nat eqn:E;
      [repeat split; now eexists|].
    destruct (decide (passwordConfirm f <> form_password f)) as [|Hp];
      [repeat split; now eexists|].
    apply Nat.ltb_ge in E. exfalso.
    destruct H as [H|[H|H]]; [contradiction | lia | contradiction].
  - destruct (signIn_fault e); repeat split; discriminate.
Qed.

Lemma rejected_form_has_no_effect_witness :
  snd (handleEmailAuth sampleOps (accountEnv 1 "u1") (signUpForm "n") emptyUserStore)
  = emptyUserStore.
Proof.
  pose proof (rejected_form_has_no_effect sampleOps (accountEnv 1 "u1") (signUpForm "n")
                emptyUserStore) as H.
  cbv beta zeta in H.
  destruct (handleEmailAuth _ _ _ _) as [[err effects] st'].
  apply H. right. left. vm_compute. lia.
Defined.
